(** * Verification of the LFJ liquidity rebalancer

    Shallow embedding of [src/auto_rebalance.py], [src/contracts/pool.py]
    and the position half of [src/db/database.py].

    Modelling choices:
    - bin ids and raw on-chain token amounts (wei) are [Z];
    - Python floats holding decimal token amounts are exact rationals [Q];
    - chain reads that can raise are [option]-valued ([None] = the call
      raised); chain writes are decided by the [world] record;
    - the SQLite position table is a list of rows in rowid order, with the
      autoincrement counter kept next to it;
    - every call issued to the chain is appended to a call trace, so that
      what the code attempted can be observed. *)

From Stdlib Require Import ZArith QArith Qabs Qround List String Ascii Bool Lia.
Import ListNotations.
Open Scope string_scope.
Open Scope Z_scope.
Open Scope list_scope.

(* ------------------------------------------------------------------ *)
(** ** Decimal rendering of Python ints (for f-strings) *)

Fixpoint digits_of_pos (fuel : nat) (n : Z) (acc : string) : string :=
  match fuel with
  | O => acc
  | S f =>
      let acc' := String (ascii_of_nat (48 + Z.to_nat (n mod 10))) acc in
      if n / 10 =? 0 then acc' else digits_of_pos f (n / 10) acc'
  end.

(** [str(n)] for a Python int. *)
Definition str_Z (n : Z) : string :=
  match n with
  | Z0 => "0"
  | Zpos p => digits_of_pos (Pos.size_nat p) (Zpos p) ""
  | Zneg p => String "-" (digits_of_pos (Pos.size_nat p) (Zpos p) "")
  end.

(* ------------------------------------------------------------------ *)
(** ** Rebalance decision engine ([auto_rebalance.py]) *)

Definition DISTANCE_THRESHOLD : Z := 2.
Definition CHECK_INTERVAL : Z := 120.

(** The only field of a position dict that [should_rebalance] reads. *)
Record pos_view := { pv_bin_id : Z }.

(** [get_optimal_bin(pool, active_id, token_type)] *)
Definition get_optimal_bin (active_id : Z) (token_type : string) : Z :=
  if String.eqb token_type "WAVAX" then active_id + 1 else active_id - 1.

Definition breach_reason (bin_id distance active_id : Z) : string :=
  "Position in bin " ++ str_Z bin_id ++ " is " ++ str_Z distance ++
  " bins away from active bin " ++ str_Z active_id.

(** The [for pos in positions] loop of [should_rebalance]. *)
Fixpoint should_rebalance_loop (positions : list pos_view) (active_id : Z)
  : bool * string :=
  match positions with
  | [] => (false, "All positions are within threshold distance")
  | pos :: rest =>
      let bin_id := pv_bin_id pos in
      let distance := Z.abs (bin_id - active_id) in
      if DISTANCE_THRESHOLD <=? distance
      then (true, breach_reason bin_id distance active_id)
      else should_rebalance_loop rest active_id
  end.

(** [should_rebalance(pool, positions, active_id)] *)
Definition should_rebalance (positions : list pos_view) (active_id : Z)
  : bool * string :=
  match positions with
  | [] => (false, "No positions found")
  | _ => should_rebalance_loop positions active_id
  end.

(* ------------------------------------------------------------------ *)
(** ** Configuration ([utils/config.py]) *)

Definition POOL_ADDRESS : string := "0x856b38bF1e2E367F747DD4d3951DDA8a35F1bF60".
Definition ROUTER_ADDRESS : string := "0x18556DA13313f3532c54711497A8FedAC273220E".
Definition WAVAX_ADDRESS : string := "0xB31f66AA3C1e785363F0875A1B74E27b85FD66c7".
Definition BTCB_ADDRESS : string := "0x152b9d0FdC40C096757F570A51E494bd4b943E50".
Definition DEFAULT_BIN_SCAN_RANGE : Z := 10.
Definition BTCB_DECIMALS : Z := 8.

(** [s.lower()] *)
Fixpoint lower (s : string) : string :=
  match s with
  | EmptyString => EmptyString
  | String c r =>
      let n := nat_of_ascii c in
      String (if (65 <=? n)%nat && (n <=? 90)%nat then ascii_of_nat (n + 32) else c)
             (lower r)
  end.

(* ------------------------------------------------------------------ *)
(** ** The chain as seen by [LiquidityPool]

    Every call the code issues is logged.  A [world] answers each call
    from the history of calls issued before it, so that writes may change
    what later reads return. *)

Inductive call :=
| C_getActiveId
| C_balanceOf (wallet : string) (bin_id : Z)
| C_getBin (bin_id : Z)
| C_tokenBalance (token wallet : string)
| C_allowance (token wallet spender : string)
| C_approve (token spender : string) (amount_wei : Z)
| C_setApprovalForAll (spender : string)
| C_addLiquidity (token_x token_y : string) (bin_ids amounts_x amounts_y : list Z)
| C_removeLiquidity (token_x token_y : string) (bin_ids amounts : list Z).

Record world := {
  w_active_id : list call -> Z;
  w_lp : list call -> string -> Z -> option Z;        (* balanceOf(wallet, bin) *)
  w_bin : list call -> Z -> option (Z * Z);           (* getBin(bin) *)
  w_token_balance : list call -> string -> string -> Q;
  w_allowance : list call -> string -> string -> option Z;
  w_tx : list call -> call -> option bool;            (* receipt.status == 1 *)
  w_token_x : string;
  w_token_y : string }.

(** [self.is_wavax_x] *)
Definition is_wavax_x (w : world) : bool :=
  String.eqb (lower (w_token_x w)) (lower WAVAX_ADDRESS).

(* ------------------------------------------------------------------ *)
(** ** Position Store ([db/database.py]) *)

Record row := {
  row_id : Z;
  row_wallet : string;
  row_bin : Z;
  row_amount : Q;
  row_token_x : string;
  row_token_y : string;
  row_pool : string;
  row_active : bool }.

(** The [notes] column.  [f"Removed {liquidity_amount} LP tokens"] is kept
    as the float it formats; other notes are plain text. *)
Inductive note :=
  | N_text (text : string)
  | N_removed_lp (liquidity_amount : Q).

Record operation := {
  op_type : string;
  op_wallet : string;
  op_pool : string;
  op_bin : option Z;
  op_amount_x : option Q;
  op_amount_y : option Q;
  op_notes : option note }.

(** The two tables; [db_next] is the AUTOINCREMENT counter of [positions]. *)
Record db := {
  db_rows : list row;
  db_next : Z;
  db_ops : list operation }.

Definition set_rows (d : db) (rs : list row) : db :=
  {| db_rows := rs; db_next := db_next d; db_ops := db_ops d |}.

(** [add_position] *)
Definition add_position (d : db) (wallet : string) (bin_id : Z) (amount : Q)
    (token_x token_y pool : string) : db :=
  {| db_rows := db_rows d ++
       [{| row_id := db_next d; row_wallet := wallet; row_bin := bin_id;
           row_amount := amount; row_token_x := token_x; row_token_y := token_y;
           row_pool := pool; row_active := true |}];
     db_next := db_next d + 1;
     db_ops := db_ops d |}.

(** The SET clause of [update_position]. *)
Definition set_amount (r : row) (new_amount : Q) (active : bool) : row :=
  {| row_id := row_id r; row_wallet := row_wallet r; row_bin := row_bin r;
     row_amount := new_amount; row_token_x := row_token_x r;
     row_token_y := row_token_y r; row_pool := row_pool r; row_active := active |}.

(** [update_position(position_id, new_amount, active=True)] *)
Definition update_position (d : db) (position_id : Z) (new_amount : Q)
    (active : bool) : db :=
  set_rows d (map (fun r => if row_id r =? position_id
                            then set_amount r new_amount active else r) (db_rows d)).

(** [deactivate_position] *)
Definition deactivate_position (d : db) (position_id : Z) : db :=
  update_position d position_id 0%Q false.

(** [get_active_positions(wallet, pool)] (the pool filter applies: the
    pool address is never empty). *)
Definition get_active_positions (d : db) (wallet pool : string) : list row :=
  filter (fun r => String.eqb (row_wallet r) wallet && row_active r
                   && String.eqb (row_pool r) pool) (db_rows d).

(** [get_position_by_bin]: [fetchone] of the matching active rows. *)
Definition get_position_by_bin (d : db) (wallet : string) (bin_id : Z)
    (pool : string) : option row :=
  find (fun r => String.eqb (row_wallet r) wallet && (row_bin r =? bin_id)
                 && String.eqb (row_pool r) pool && row_active r) (db_rows d).

(** [record_operation] *)
Definition record_operation (d : db) (o : operation) : db :=
  {| db_rows := db_rows d; db_next := db_next d; db_ops := db_ops d ++ [o] |}.

(* ------------------------------------------------------------------ *)
(** ** Program state: the database and the log of chain calls *)

Record state := {
  st_db : db;
  st_log : list call }.   (* chronological *)

Definition with_db (s : state) (d : db) : state :=
  {| st_db := d; st_log := st_log s |}.

Definition issue (s : state) (c : call) : state :=
  {| st_db := st_db s; st_log := st_log s ++ [c] |}.

Definition get_active_bin (w : world) (s : state) : Z * state :=
  (w_active_id w (st_log s), issue s C_getActiveId).

Definition read_lp (w : world) (s : state) (wallet : string) (bin_id : Z)
  : option Z * state :=
  (w_lp w (st_log s) wallet bin_id, issue s (C_balanceOf wallet bin_id)).

Definition read_bin (w : world) (s : state) (bin_id : Z) : option (Z * Z) * state :=
  (w_bin w (st_log s) bin_id, issue s (C_getBin bin_id)).

Definition send_tx (w : world) (s : state) (c : call) : option bool * state :=
  (w_tx w (st_log s) c, issue s c).

(* ------------------------------------------------------------------ *)
(** ** Position resolution ([LiquidityPool.get_all_lp_balances]) *)

Record position := {
  p_bin_id : Z;
  p_lp_balance : Q;
  p_token_x : string;
  p_token_y : string;
  p_reserve_x : Z;
  p_reserve_y : Z;
  p_distance_from_active : Z }.

(** Python floats are IEEE 754 binary64.  [round_half_even n d] is [n / d]
    rounded to the nearest integer, ties to even ([d > 0]). *)
Definition round_half_even (n d : Z) : Z :=
  let (q, r) := Z.div_eucl n d in
  match Z.compare (2 * r) d with
  | Lt => q
  | Gt => q + 1
  | Eq => if Z.even q then q else q + 1
  end.

(** The binary64 value nearest to [n / d] ([n, d > 0]): [e] is the binary
    exponent of [n / d], [k] the exponent of its last significand bit (53
    bits, or the subnormal quantum [2 ^ -1074]). *)
Definition round64_pos (n d : Z) : Q :=
  let e0 := Z.log2 n - Z.log2 d in
  let e := if n * 2 ^ Z.max 0 (- e0) <? d * 2 ^ Z.max 0 e0 then e0 - 1 else e0 in
  let k := Z.max (e - 52) (-1074) in
  let m := round_half_even (n * 2 ^ Z.max 0 (- k)) (d * 2 ^ Z.max 0 k) in
  if 0 <=? k then inject_Z (m * 2 ^ k) else Qmake m (Z.to_pos (2 ^ (- k))).

(** Rounding to nearest, ties to even, onto binary64 (finite range: every
    value rounded here is far below [2 ^ 1024]). *)
Definition round64 (x : Q) : Q :=
  match Qnum x with
  | Z0 => 0
  | Zpos n => round64_pos (Zpos n) (Zpos (Qden x))
  | Zneg n => Qopp (round64_pos (Zpos n) (Zpos (Qden x)))
  end.

(** [x - y] on floats. *)
Definition fsub (x y : Q) : Q := round64 (x - y).

(** [balance / (10 ** 18)]: true division of two Python ints, correctly
    rounded to a float. *)
Definition lp_of_wei (balance : Z) : Q := round64 (inject_Z balance / inject_Z (10 ^ 18)).

(** The float literal [0.000001]. *)
Definition AMOUNT_EPSILON : Q := round64 (1 # 1000000).
Opaque lp_of_wei fsub AMOUNT_EPSILON.

(** [x > y] on floats. *)
Definition Qgtb (x y : Q) : bool := negb (Qle_bool x y).

Definition mk_position (w : world) (bin_id : Z) (balance : Z) (bx by_ : Z)
    (active_id : Z) : position :=
  {| p_bin_id := bin_id; p_lp_balance := lp_of_wei balance;
     p_token_x := w_token_x w; p_token_y := w_token_y w;
     p_reserve_x := bx; p_reserve_y := by_;
     p_distance_from_active := bin_id - active_id |}.

(** The [for pos in db_positions] loop; a raising read skips the bin. *)
Fixpoint cache_loop (w : world) (wallet : string) (active_id : Z)
    (db_positions : list row) (s : state) (acc : list position)
  : list position * state :=
  match db_positions with
  | [] => (acc, s)
  | pos :: rest =>
      let bin_id := row_bin pos in
      let (ob, s1) := read_lp w s wallet bin_id in
      match ob with
      | None => cache_loop w wallet active_id rest s1 acc
      | Some balance =>
          if 0 <? balance then
            let (orr, s2) := read_bin w s1 bin_id in
            match orr with
            | None => cache_loop w wallet active_id rest s2 acc
            | Some (bx, by_) =>
                let p := mk_position w bin_id balance bx by_ active_id in
                let s3 :=
                  if Qgtb (Qabs (fsub (row_amount pos) (lp_of_wei balance))) AMOUNT_EPSILON
                  then with_db s2 (update_position (st_db s2) (row_id pos)
                                                   (lp_of_wei balance) true)
                  else s2 in
                cache_loop w wallet active_id rest s3 (acc ++ [p])
            end
          else
            cache_loop w wallet active_id rest
                       (with_db s1 (deactivate_position (st_db s1) (row_id pos))) acc
      end
  end.

(** [range(lo, hi)] *)
Definition py_range (lo hi : Z) : list Z :=
  map (fun i => lo + Z.of_nat i) (seq 0 (Z.to_nat (hi - lo))).

(** The [for bin_id in range(start_bin, end_bin + 1)] loop. *)
Fixpoint scan_loop (w : world) (wallet : string) (active_id : Z)
    (use_db_first : bool) (bins : list Z) (s : state) (acc : list position)
  : list position * state :=
  match bins with
  | [] => (acc, s)
  | bin_id :: rest =>
      let (ob, s1) := read_lp w s wallet bin_id in
      match ob with
      | None => scan_loop w wallet active_id use_db_first rest s1 acc
      | Some balance =>
          if 0 <? balance then
            let (orr, s2) := read_bin w s1 bin_id in
            match orr with
            | None => scan_loop w wallet active_id use_db_first rest s2 acc
            | Some (bx, by_) =>
                let p := mk_position w bin_id balance bx by_ active_id in
                let s3 :=
                  if use_db_first then
                    match get_position_by_bin (st_db s2) wallet bin_id POOL_ADDRESS with
                    | Some _ => s2
                    | None => with_db s2 (add_position (st_db s2) wallet bin_id
                                            (lp_of_wei balance) (w_token_x w)
                                            (w_token_y w) POOL_ADDRESS)
                    end
                  else s2 in
                scan_loop w wallet active_id use_db_first rest s3 (acc ++ [p])
            end
          else scan_loop w wallet active_id use_db_first rest s1 acc
      end
  end.

(** The full-scan fallback. *)
Definition full_scan (w : world) (wallet : string) (scan_range : Z)
    (use_db_first : bool) (s : state) : list position * state :=
  let (active_id, s1) := get_active_bin w s in
  let start_bin := Z.max 0 (active_id - scan_range) in
  let end_bin := active_id + scan_range in
  scan_loop w wallet active_id use_db_first (py_range start_bin (end_bin + 1)) s1 [].

(** The database-first phase; [[]] when it finds nothing. *)
Definition cache_phase (w : world) (wallet : string) (use_db_first : bool)
    (s : state) : list position * state :=
  if use_db_first then
    match get_active_positions (st_db s) wallet POOL_ADDRESS with
    | [] => ([], s)
    | db_positions =>
        let (active_id, s1) := get_active_bin w s in
        cache_loop w wallet active_id db_positions s1 []
    end
  else ([], s).

(** [get_all_lp_balances(wallet_address, scan_range=50, use_db_first=True)] *)
Definition get_all_lp_balances (w : world) (s : state) (wallet : string)
    (scan_range : Z) (use_db_first : bool) : list position * state :=
  let (positions, s1) := cache_phase w wallet use_db_first s in
  match positions with
  | _ :: _ => (positions, s1)
  | [] => full_scan w wallet scan_range use_db_first s1
  end.

(* ------------------------------------------------------------------ *)
(** ** Writes ([approve_token], [approve_lp_tokens], [add_liquidity],
    [remove_liquidity], [remove_all_liquidity]) *)

(** [int(x)] for the non-negative amounts the code converts. *)
Definition py_int (x : Q) : Z := Qfloor x.

(** [w3.to_wei(x, 'ether')] *)
Definition to_wei (x : Q) : Z := py_int (x * inject_Z (10 ^ 18)).
Opaque to_wei.

Definition read_token_balance (w : world) (s : state) (token wallet : string)
  : Q * state :=
  (w_token_balance w (st_log s) token wallet, issue s (C_tokenBalance token wallet)).

(** [approve_token(token_address, spender_address, amount, private_key)] *)
Definition approve_token (w : world) (s : state) (account token spender : string)
    (amount : Q) : bool * state :=
  let amount_wei :=
    if String.eqb (lower token) (lower WAVAX_ADDRESS) then to_wei amount
    else if String.eqb (lower token) (lower BTCB_ADDRESS)
    then py_int (amount * inject_Z (10 ^ BTCB_DECIMALS))
    else py_int (amount * inject_Z (10 ^ 18)) in
  let current := w_allowance w (st_log s) token account in
  let s1 := issue s (C_allowance token account spender) in
  match current with
  | None => (false, s1)
  | Some current_allowance =>
      if amount_wei <=? current_allowance then (true, s1)
      else
        let (r, s2) := send_tx w s1 (C_approve token spender amount_wei) in
        (match r with Some true => true | _ => false end, s2)
  end.

(** [approve_lp_tokens(spender_address, private_key)] *)
Definition approve_lp_tokens (w : world) (s : state) (spender : string) : bool * state :=
  let (r, s1) := send_tx w s (C_setApprovalForAll spender) in
  (match r with Some true => true | _ => false end, s1).

(** The token-side approvals of [add_liquidity]: [None] when one fails. *)
Definition add_liquidity_approvals (w : world) (s : state) (account : string)
    (avax_amount btc_amount : Q) : option (Z * Z) * state :=
  let (r1, s1) :=
    if Qgtb avax_amount 0 then
      let (ok, s') := approve_token w s account WAVAX_ADDRESS ROUTER_ADDRESS avax_amount in
      (if ok then Some (to_wei avax_amount) else None, s')
    else (Some 0, s) in
  match r1 with
  | None => (None, s1)
  | Some avax_wei =>
      if Qgtb btc_amount 0 then
        let (ok, s2) := approve_token w s1 account BTCB_ADDRESS ROUTER_ADDRESS btc_amount in
        (if ok then Some (avax_wei, py_int (btc_amount * inject_Z (10 ^ BTCB_DECIMALS)))
         else None, s2)
      else (Some (avax_wei, 0), s1)
  end.

(** [add_liquidity(bin_id, avax_amount, btc_amount, private_key)] *)
Definition add_liquidity (w : world) (s : state) (account : string) (bin_id : Z)
    (avax_amount btc_amount : Q) : bool * state :=
  let (ra, s1) := add_liquidity_approvals w s account avax_amount btc_amount in
  match ra with
  | None => (false, s1)
  | Some (avax_wei, btc_wei) =>
      let amount_x := if is_wavax_x w then avax_wei else btc_wei in
      let amount_y := if is_wavax_x w then btc_wei else avax_wei in
      let (r, s2) := send_tx w s1 (C_addLiquidity (w_token_x w) (w_token_y w)
                                     [bin_id] [amount_x] [amount_y]) in
      match r with
      | Some true =>
          let s3 := with_db s2 (record_operation (st_db s2)
                      {| op_type := "add"; op_wallet := account;
                         op_pool := POOL_ADDRESS; op_bin := Some bin_id;
                         op_amount_x := Some (if is_wavax_x w then avax_amount else btc_amount);
                         op_amount_y := Some (if is_wavax_x w then btc_amount else avax_amount);
                         op_notes := None |}) in
          let (ob, s4) := read_lp w s3 account bin_id in
          match ob with
          | None => (false, s4)
          | Some b =>
              let lp_balance := lp_of_wei b in
              match get_position_by_bin (st_db s4) account bin_id POOL_ADDRESS with
              | Some pos =>
                  (true, with_db s4 (update_position (st_db s4) (row_id pos) lp_balance true))
              | None =>
                  (true, with_db s4 (add_position (st_db s4) account bin_id lp_balance
                                       (w_token_x w) (w_token_y w) POOL_ADDRESS))
              end
          end
      | _ => (false, s2)
      end
  end.

(** [remove_liquidity(bin_id, liquidity_amount, private_key)] *)
Definition remove_liquidity (w : world) (s : state) (account : string) (bin_id : Z)
    (liquidity_amount : Q) : bool * state :=
  let (ra, s1) :=
    if Qle_bool liquidity_amount 0 then
      let (ob, s') := read_lp w s account bin_id in
      match ob with
      | None => (None, s')
      | Some b => (if Qle_bool (lp_of_wei b) 0 then None else Some (lp_of_wei b), s')
      end
    else (Some liquidity_amount, s) in
  match ra with
  | None => (false, s1)
  | Some amount =>
      let liquidity_wei := py_int (amount * inject_Z (10 ^ 18)) in
      let (ok, s2) := approve_lp_tokens w s1 ROUTER_ADDRESS in
      if negb ok then (false, s2) else
      let (r, s3) := send_tx w s2 (C_removeLiquidity (w_token_x w) (w_token_y w)
                                     [bin_id] [liquidity_wei]) in
      match r with
      | Some true =>
          let s4 := with_db s3 (record_operation (st_db s3)
                      {| op_type := "remove"; op_wallet := account;
                         op_pool := POOL_ADDRESS; op_bin := Some bin_id;
                         op_amount_x := None; op_amount_y := None;
                         op_notes := Some (N_removed_lp amount) |}) in
          let (ob, s5) := read_lp w s4 account bin_id in
          match ob with
          | None => (false, s5)
          | Some b =>
              let current := lp_of_wei b in
              match get_position_by_bin (st_db s5) account bin_id POOL_ADDRESS with
              | Some pos =>
                  if Qle_bool current 0
                  then (true, with_db s5 (deactivate_position (st_db s5) (row_id pos)))
                  else (true, with_db s5 (update_position (st_db s5) (row_id pos) current true))
              | None => (true, s5)
              end
          end
      | _ => (false, s3)
      end
  end.

Fixpoint join_comma (xs : list string) : string :=
  match xs with
  | [] => ""
  | [x] => x
  | x :: r => x ++ ", " ++ join_comma r
  end.

(** The [for pos in positions] loop marking the withdrawn rows inactive. *)
Fixpoint deactivate_all (d : db) (account : string) (positions : list position) : db :=
  match positions with
  | [] => d
  | pos :: rest =>
      let d' := match get_position_by_bin d account (p_bin_id pos) POOL_ADDRESS with
                | Some db_pos => deactivate_position d (row_id db_pos)
                | None => d
                end in
      deactivate_all d' account rest
  end.

(** [remove_all_liquidity(private_key, scan_range=100)] *)
Definition remove_all_liquidity (w : world) (s : state) (account : string)
    (scan_range : Z) : bool * state :=
  let (positions, s1) := get_all_lp_balances w s account scan_range true in
  match positions with
  | [] => (false, s1)
  | _ =>
      let (ok, s2) := approve_lp_tokens w s1 ROUTER_ADDRESS in
      if negb ok then (false, s2) else
      let bin_ids := map p_bin_id positions in
      let amounts := map (fun p => py_int (p_lp_balance p * inject_Z (10 ^ 18))) positions in
      let (r, s3) := send_tx w s2 (C_removeLiquidity (w_token_x w) (w_token_y w)
                                     bin_ids amounts) in
      match r with
      | Some true =>
          let d := record_operation (st_db s3)
                     {| op_type := "remove_all"; op_wallet := account;
                        op_pool := POOL_ADDRESS; op_bin := None;
                        op_amount_x := None; op_amount_y := None;
                        op_notes := Some (N_text (String.append "Removed liquidity from bins: "
                                          (join_comma (map (fun p => str_Z (p_bin_id p)) positions)))) |} in
          (true, with_db s3 (deactivate_all d account positions))
      | _ => (false, s3)
      end
  end.

(* ------------------------------------------------------------------ *)
(** ** Rebalance executor ([rebalance_liquidity]) *)

Definition AVAX_RESERVE : Q := 1 # 1000000.
Definition BTC_RESERVE : Q := 1 # 10000000000.

(** [max(0, x)] *)
Definition py_max0 (x : Q) : Q := if Qle_bool x 0 then 0 else x.

Definition rebalance_liquidity (w : world) (s : state) (account : string)
    (active_id : Z) : bool * state :=
  let (success, s1) := remove_all_liquidity w s account DEFAULT_BIN_SCAN_RANGE in
  if negb success then (false, s1) else
  let (avax_balance, s2) := read_token_balance w s1 WAVAX_ADDRESS account in
  let (btc_balance, s3) := read_token_balance w s2 BTCB_ADDRESS account in
  let avax_to_add := py_max0 (avax_balance - AVAX_RESERVE) in
  let btc_to_add := py_max0 (btc_balance - BTC_RESERVE) in
  let wavax_bin := get_optimal_bin active_id "WAVAX" in
  let btc_bin := get_optimal_bin active_id "BTC.b" in
  let (c1, s4) :=
    if Qgtb avax_to_add (1 # 100) then
      let (ok, s') := add_liquidity w s3 account wavax_bin avax_to_add 0 in
      ((if ok then 1 else 0)%nat, s')
    else (0%nat, s3) in
  let (c2, s5) :=
    if Qgtb btc_to_add (1 # 10000) then
      let (ok, s') := add_liquidity w s4 account btc_bin 0 btc_to_add in
      ((if ok then 1 else 0)%nat, s')
    else (0%nat, s4) in
  if (0 <? c1 + c2)%nat then
    let (_, s6) := read_token_balance w s5 WAVAX_ADDRESS account in
    let (_, s7) := read_token_balance w s6 BTCB_ADDRESS account in
    (true, s7)
  else (false, s5).

(* ------------------------------------------------------------------ *)
(** ** Initial placement and the monitoring loop ([auto_rebalance.py]) *)

(** [x < y] on floats. *)
Definition Qltb (x y : Q) : bool := negb (Qle_bool y x).

(** [add_initial_positions(pool, private_key)] *)
Definition add_initial_positions (w : world) (s : state) (account : string) : bool * state :=
  let (active_id, s1) := get_active_bin w s in
  let (avax_balance, s2) := read_token_balance w s1 WAVAX_ADDRESS account in
  let (btc_balance, s3) := read_token_balance w s2 BTCB_ADDRESS account in
  if Qltb avax_balance (1 # 100) && Qltb btc_balance (1 # 10000) then (false, s3) else
  let avax_to_add := py_max0 (avax_balance - AVAX_RESERVE) in
  let btc_to_add := py_max0 (btc_balance - BTC_RESERVE) in
  let wavax_bin := get_optimal_bin active_id "WAVAX" in
  let btc_bin := get_optimal_bin active_id "BTC.b" in
  let (c1, s4) :=
    if Qgtb avax_to_add (1 # 100) then
      let (ok, s') := add_liquidity w s3 account wavax_bin avax_to_add 0 in
      ((if ok then 1 else 0)%nat, s')
    else (0%nat, s3) in
  let (c2, s5) :=
    if Qgtb btc_to_add (1 # 10000) then
      let (ok, s') := add_liquidity w s4 account btc_bin 0 btc_to_add in
      ((if ok then 1 else 0)%nat, s')
    else (0%nat, s4) in
  if (0 <? c1 + c2)%nat then
    let (_, s6) := read_token_balance w s5 WAVAX_ADDRESS account in
    let (_, s7) := read_token_balance w s6 BTCB_ADDRESS account in
    (true, s7)
  else (false, s5).

(** One check of the monitoring loop of [main()] (the body of its inner
    [try]); [get_all_lp_balances] runs with its default [scan_range=50]. *)
Definition monitor_check (w : world) (s : state) (account : string) : state :=
  let (active_id, s1) := get_active_bin w s in
  let (positions, s2) := get_all_lp_balances w s1 account 50 true in
  match positions with
  | _ :: _ =>
      let (should_rebal, _) :=
        should_rebalance (map (fun p => {| pv_bin_id := p_bin_id p |}) positions) active_id in
      if should_rebal then snd (rebalance_liquidity w s2 account active_id) else s2
  | [] =>
      let (avax_balance, s3) := read_token_balance w s2 WAVAX_ADDRESS account in
      let (btc_balance, s4) := read_token_balance w s3 BTCB_ADDRESS account in
      if Qgtb avax_balance (1 # 100) || Qgtb btc_balance (1 # 10000)
      then snd (add_initial_positions w s4 account)
      else s4
  end.

(* ------------------------------------------------------------------ *)
(** ** [scan_all_positions] ([main.py]) *)

(** The menu entry; [confirm] is the answer typed at the prompt.  It returns
    the summary line it prints and the positions found, or [None] when the
    operation is cancelled. *)
Definition scan_all_positions (w : world) (s : state) (account confirm : string)
  : option (string * list position) * state :=
  if negb (String.eqb (lower confirm) "y") then (None, s) else
  let scan_range := 1000 in
  let (positions, s1) := get_all_lp_balances w s account scan_range false in
  (Some ((String (ascii_of_nat 10) "Found " ++ str_Z (Z.of_nat (List.length positions)) ++
          " positions across " ++ str_Z (scan_range * 2) ++ " bins:")%string, positions), s1).

(* ================================================================== *)
(** * Concrete chains used by the examples *)

(** A chain whose reads do not change, active bin 1000, WAVAX as token X;
    [lp] gives the LP balances of every wallet, [tx] the receipts. *)
Definition fixed_world_at (active : Z) (lp : Z -> option Z) (tx : call -> option bool)
  : world :=
  {| w_active_id := fun _ => active;
     w_lp := fun _ _ b => lp b;
     w_bin := fun _ b => Some (7, 9);
     w_token_balance := fun _ _ _ => 0%Q;
     w_allowance := fun _ _ _ => Some 0;
     w_tx := fun _ c => tx c;
     w_token_x := WAVAX_ADDRESS;
     w_token_y := BTCB_ADDRESS |}.

Definition fixed_world := fixed_world_at 1000.

Definition empty_db : db := {| db_rows := []; db_next := 1; db_ops := [] |}.
Definition start (d : db) : state := {| st_db := d; st_log := [] |}.

Definition tracked_row (id bin_id : Z) (amount : Q) : row :=
  {| row_id := id; row_wallet := "0xA11CE"; row_bin := bin_id; row_amount := amount;
     row_token_x := WAVAX_ADDRESS; row_token_y := BTCB_ADDRESS;
     row_pool := POOL_ADDRESS; row_active := true |}.

(** Bins of the [balanceOf] calls of a call log. *)
Fixpoint balance_checks (log : list call) : list Z :=
  match log with
  | [] => []
  | C_balanceOf _ b :: r => b :: balance_checks r
  | _ :: r => balance_checks r
  end.

Definition is_add_call (c : call) : bool :=
  match c with C_addLiquidity _ _ _ _ _ => true | _ => false end.

(** Every removal transaction reverts; every other one succeeds. *)
Definition removal_reverts (c : call) : option bool :=
  match c with C_removeLiquidity _ _ _ _ => Some false | _ => Some true end.

(** One position at bin 1000 holding 2 LP tokens, stored with amount 1. *)
Definition world_c2 : world :=
  fixed_world (fun b => if b =? 1000 then Some (2 * 10 ^ 18) else Some 0) removal_reverts.
Definition state_c2 : state :=
  start {| db_rows := [tracked_row 1 1000 1]; db_next := 2; db_ops := [] |}.

(** Two tracked records on the chain of [world_c2]: bin 1000 (live) and
    bin 1001 (empty). *)
Definition state_c3 : state :=
  start {| db_rows := [tracked_row 1 1000 1; tracked_row 2 1001 1]; db_next := 3;
           db_ops := [] |}.

(** A record stored with amount 2 whose live balance is
    2000000999999999950 wei, and a record stored with amount 1 whose live
    balance is 1000001000000000001 wei. *)
Definition world_c3x : world :=
  fixed_world (fun b => if b =? 1000 then Some 2000000999999999950 else Some 0)
              (fun _ => Some true).
Definition state_c3x : state :=
  start {| db_rows := [tracked_row 1 1000 2]; db_next := 2; db_ops := [] |}.
Definition world_c3y : world :=
  fixed_world (fun b => if b =? 1000 then Some 1000001000000000001 else Some 0)
              (fun _ => Some true).
Definition state_c3y : state :=
  start {| db_rows := [tracked_row 1 1000 1]; db_next := 2; db_ops := [] |}.

(** Active bin 5, one position at bin 3. *)
Definition world_c5 : world :=
  fixed_world_at 5 (fun b => if b =? 3 then Some (10 ^ 18) else Some 0) (fun _ => Some true).

(** One untracked position at bin 1020, twenty bins above the active bin. *)
Definition world_c4 : world :=
  fixed_world (fun b => if b =? 1020 then Some (10 ^ 18) else Some 0) (fun _ => Some true).

(** Active bin 1000, one position at bin 1001, every transaction succeeds,
    and the wallet holds 1 WAVAX and 1 BTC.b. *)
Definition world_funded : world :=
  {| w_active_id := fun _ => 1000;
     w_lp := fun _ _ b => if b =? 1001 then Some (10 ^ 18) else Some 0;
     w_bin := fun _ _ => Some (7, 9);
     w_token_balance := fun _ _ _ => 1%Q;
     w_allowance := fun _ _ _ => Some 0;
     w_tx := fun _ _ => Some true;
     w_token_x := WAVAX_ADDRESS;
     w_token_y := BTCB_ADDRESS |}.

(** [s'] extends the call log of [s] without any add-liquidity call. *)
Definition no_add_ext (s s' : state) : Prop :=
  exists tail, st_log s' = st_log s ++ tail /\
               forallb (fun c => negb (is_add_call c)) tail = true.

(* ================================================================== *)
(** * Auxiliary notions used by the proofs *)

Definition gpb_key (wallet : string) (b : Z) (r : row) : bool :=
  String.eqb (row_wallet r) wallet && (row_bin r =? b)
  && String.eqb (row_pool r) POOL_ADDRESS && row_active r.

(** A chain whose reads do not depend on what was issued before. *)
Definition static_world (w : world) : Prop :=
  forall h, w_active_id w h = w_active_id w [] /\ w_lp w h = w_lp w [] /\
            w_bin w h = w_bin w [].

Definition opt_list {X : Type} (o : option X) : list X :=
  match o with Some x => [x] | None => [] end.

Definition isSome {X : Type} (o : option X) : bool :=
  match o with Some _ => true | None => false end.

(** What one live check of bin [b] contributes to the result. *)
Definition emit (w : world) (wallet : string) (A b : Z) : option position :=
  match w_lp w [] wallet b with
  | Some bal =>
      if 0 <? bal then
        match w_bin w [] b with
        | Some (bx, by_) => Some (mk_position w b bal bx by_ A)
        | None => None
        end
      else None
  | None => None
  end.

Definition emits (w : world) (wallet : string) (A : Z) (bins : list Z) : list position :=
  flat_map (fun b => opt_list (emit w wallet A b)) bins.

(** What one iteration of the cache loop on stored row [q] does to the row
    [r] carrying its id. *)
Definition step_eff (w : world) (wallet : string) (q r : row) : row :=
  match w_lp w [] wallet (row_bin q) with
  | None => r
  | Some bal =>
      if 0 <? bal then
        match w_bin w [] (row_bin q) with
        | None => r
        | Some _ =>
            if Qgtb (Qabs (fsub (row_amount q) (lp_of_wei bal))) AMOUNT_EPSILON
            then set_amount r (lp_of_wei bal) true else r
        end
      else set_amount r 0 false
  end.

Definition cache_eff (w : world) (wallet : string) (L : list row) (r : row) : row :=
  match find (fun q => row_id q =? row_id r) L with
  | Some q => step_eff w wallet q r
  | None => r
  end.

Definition upd_one (w : world) (wallet : string) (q r : row) : row :=
  if row_id r =? row_id q then step_eff w wallet q r else r.

(** Bins of the active records of [wallet] in the pool. *)
Definition active_bins (d : db) (wallet : string) : list Z :=
  map row_bin (get_active_positions d wallet POOL_ADDRESS).

(** Bins whose live balance is not known to be zero. *)
Definition notdead (w : world) (wallet : string) (b : Z) : bool :=
  match w_lp w [] wallet b with Some bal => 0 <? bal | None => true end.

Definition memZ (b : Z) (l : list Z) : bool := existsb (Z.eqb b) l.

Definition act (wallet : string) (r : row) : bool :=
  String.eqb (row_wallet r) wallet && row_active r && String.eqb (row_pool r) POOL_ADDRESS.

Definition row_key (r : row) : string * string * Z := (row_wallet r, row_pool r, row_bin r).

(** At most one active row per [(wallet, pool, bin)]. *)
Definition active_unique (d : db) : Prop :=
  NoDup (map row_key (filter row_active (db_rows d))).

(** The primary key: distinct ids, all below the AUTOINCREMENT counter. *)
Definition ids_ok (d : db) : Prop :=
  NoDup (map row_id (db_rows d)) /\ Forall (fun r => row_id r < db_next d) (db_rows d).

Definition store_ok (d : db) : Prop := ids_ok d /\ active_unique d.

(** The rows whose id is that of some record in [L] are active. *)
Definition ids_active (d : db) (L : list row) : Prop :=
  forall q, In q L -> forall r, In r (db_rows d) -> row_id r = row_id q -> row_active r = true.

(** [s'] extends the call log of [s] with calls that all satisfy [P]. *)
Definition ext_P (P : call -> Prop) (s s' : state) : Prop :=
  exists tail, st_log s' = st_log s ++ tail /\ Forall P tail.

Definition not_add (c : call) : Prop := is_add_call c = false.

(** The calls position resolution issues: reads of the pool contract. *)
Definition is_resolution_read (c : call) : Prop :=
  match c with
  | C_getActiveId | C_balanceOf _ _ | C_getBin _ => True
  | _ => False
  end.

(** The calls that only read the chain. *)
Definition is_chain_read (c : call) : Prop :=
  match c with
  | C_getActiveId | C_balanceOf _ _ | C_getBin _ | C_tokenBalance _ _
  | C_allowance _ _ _ => True
  | _ => False
  end.

(** The add-liquidity calls of [add_liquidity w _ _ bin_id avax btc]. *)
Definition add_call_of (w : world) (bin_id : Z) (avax_amount btc_amount : Q) (c : call) : Prop :=
  match c with
  | C_addLiquidity tx ty bins ax ay =>
      let avax_wei := if Qgtb avax_amount 0 then to_wei avax_amount else 0 in
      let btc_wei := if Qgtb btc_amount 0
                     then py_int (btc_amount * inject_Z (10 ^ BTCB_DECIMALS)) else 0 in
      tx = w_token_x w /\ ty = w_token_y w /\ bins = [bin_id] /\
      ax = [if is_wavax_x w then avax_wei else btc_wei] /\
      ay = [if is_wavax_x w then btc_wei else avax_wei]
  | _ => True
  end.

(** An add-liquidity call that deposits a positive amount of WAVAX and
    none of BTC.b in bin [A + 1], or a positive amount of BTC.b and none of
    WAVAX in bin [A - 1]. *)
Definition placement_ok (w : world) (A : Z) (c : call) : Prop :=
  match c with
  | C_addLiquidity _ _ bins ax ay =>
      (bins = [A + 1] /\ exists a, 0 < a /\
         (if is_wavax_x w then ax = [a] /\ ay = [0] else ay = [a] /\ ax = [0])) \/
      (bins = [A - 1] /\ exists a, 0 < a /\
         (if is_wavax_x w then ay = [a] /\ ax = [0] else ax = [a] /\ ay = [0]))
  | _ => True
  end.

(* ================================================================== *)
(** * Properties of the decision engine *)

Lemma should_rebalance_loop_true (P : list pos_view) (A : Z) :
  fst (should_rebalance_loop P A) = true <->
  exists p, In p P /\ DISTANCE_THRESHOLD <= Z.abs (pv_bin_id p - A).
Proof.
  induction P as [|q P IH]; simpl.
  - split; [discriminate | intros (p & [] & _)].
  - destruct (DISTANCE_THRESHOLD <=? Z.abs (pv_bin_id q - A)) eqn:E.
    + split; [intros _; exists q; split; [left; reflexivity | now apply Z.leb_le] | reflexivity].
    + rewrite IH. split.
      * intros (p & Hin & Hd). exists p. split; [right; exact Hin | exact Hd].
      * intros (p & [<- | Hin] & Hd).
        -- apply Z.leb_nle in E. contradiction.
        -- exists p. split; assumption.
Qed.

(** C1: [should_rebalance(P, A)] answers true exactly when some position of
    [P] lies at distance at least [DISTANCE_THRESHOLD] (= 2) from the
    active bin, and answers false for the empty list. *)
Theorem should_rebalance_iff_breach (P : list pos_view) (A : Z) :
  (fst (should_rebalance P A) = true <->
   exists p, In p P /\ 2 <= Z.abs (pv_bin_id p - A)) /\
  fst (should_rebalance [] A) = false.
Proof.
  split; [|reflexivity].
  destruct P as [|q P]; simpl.
  - split; [discriminate | intros (p & [] & _)].
  - exact (should_rebalance_loop_true (q :: P) A).
Qed.

(** C7: the first breaching position in the supplied order is the one
    reported, whatever comes after it; the reason names its bin and its
    distance. *)
Theorem should_rebalance_first_breach (pre : list pos_view) (p : pos_view)
    (post : list pos_view) (A : Z)
    (Hpre : Forall (fun q => Z.abs (pv_bin_id q - A) < DISTANCE_THRESHOLD) pre)
    (Hp : DISTANCE_THRESHOLD <= Z.abs (pv_bin_id p - A)) :
  should_rebalance (pre ++ p :: post) A =
  (true, breach_reason (pv_bin_id p) (Z.abs (pv_bin_id p - A)) A).
Proof.
  assert (Hloop : should_rebalance_loop (pre ++ p :: post) A =
                  (true, breach_reason (pv_bin_id p) (Z.abs (pv_bin_id p - A)) A)).
  { induction Hpre as [|q pre Hq _ IH]; simpl.
    - apply Z.leb_le in Hp. rewrite Hp. reflexivity.
    - assert (E : (DISTANCE_THRESHOLD <=? Z.abs (pv_bin_id q - A)) = false)
        by (apply Z.leb_gt; exact Hq).
      rewrite E. exact IH. }
  destruct pre; exact Hloop.
Qed.

Lemma should_rebalance_first_breach_witness :
  Forall (fun q => Z.abs (pv_bin_id q - 103) < DISTANCE_THRESHOLD) [] /\
  DISTANCE_THRESHOLD <= Z.abs (100 - 103) /\
  should_rebalance [{| pv_bin_id := 100 |}] 103 =
  (true, "Position in bin 100 is 3 bins away from active bin 103") /\
  should_rebalance [{| pv_bin_id := 100 |}; {| pv_bin_id := 90 |}] 103 =
  (true, "Position in bin 100 is 3 bins away from active bin 103").
Proof.
  split; [constructor|]. split; [vm_compute; discriminate|]. split.
  - exact (should_rebalance_first_breach [] {| pv_bin_id := 100 |} [] 103
             (Forall_nil _) ltac:(vm_compute; discriminate)).
  - exact (should_rebalance_first_breach [] {| pv_bin_id := 100 |}
             [{| pv_bin_id := 90 |}] 103 (Forall_nil _) ltac:(vm_compute; discriminate)).
Defined.

(** C10: the replacement bin is [A + 1] for WAVAX and [A - 1] for BTC.b,
    for every active bin [A]. *)
Theorem get_optimal_bin_sides (A : Z) :
  get_optimal_bin A "WAVAX" = A + 1 /\ get_optimal_bin A "BTC.b" = A - 1.
Proof. split; reflexivity. Qed.

(* ================================================================== *)
(** * Call-log lemmas *)

Lemma no_add_ext_refl (s : state) : no_add_ext s s.
Proof. exists []. rewrite app_nil_r. split; reflexivity. Qed.

Lemma no_add_ext_trans (s1 s2 s3 : state) :
  no_add_ext s1 s2 -> no_add_ext s2 s3 -> no_add_ext s1 s3.
Proof.
  intros (t1 & E1 & F1) (t2 & E2 & F2). exists (t1 ++ t2).
  rewrite E2, E1, app_assoc, forallb_app, F1, F2. split; reflexivity.
Qed.

Lemma no_add_ext_issue (s : state) (c : call) :
  is_add_call c = false -> no_add_ext s (issue s c).
Proof. intros H. exists [c]. simpl. rewrite H. split; reflexivity. Qed.

Lemma no_add_ext_with_db (s s' : state) (d : db) :
  no_add_ext s s' -> no_add_ext s (with_db s' d).
Proof. intros H. exact H. Qed.

Lemma no_add_ext_with_db_l (s s' : state) (d : db) :
  no_add_ext (with_db s d) s' -> no_add_ext s s'.
Proof. intros H. exact H. Qed.

Ltac close_ext IH := first [apply IH | eapply no_add_ext_with_db_l; apply IH].

Ltac step_ext :=
  match goal with
  | |- no_add_ext ?s0 _ =>
      match goal with
      | |- context [issue s0 ?c] =>
          apply (no_add_ext_trans s0 (issue s0 c)); [apply no_add_ext_issue; reflexivity|]
      end
  end.

Lemma cache_loop_no_add (w : world) (wallet : string) (A : Z) (L : list row) :
  forall s acc, no_add_ext s (snd (cache_loop w wallet A L s acc)).
Proof.
  induction L as [|q L IH]; intros s acc; simpl; [apply no_add_ext_refl|].
  destruct (w_lp w (st_log s) wallet (row_bin q)) as [bal|];
    [|step_ext; apply IH].
  destruct (0 <? bal).
  - step_ext.
    destruct (w_bin w _ (row_bin q)) as [[bx by_]|]; step_ext; [|apply IH].
    destruct (Qgtb _ _); close_ext IH.
  - step_ext. close_ext IH.
Qed.

Lemma scan_loop_no_add (w : world) (wallet : string) (A : Z) (u : bool) (bins : list Z) :
  forall s acc, no_add_ext s (snd (scan_loop w wallet A u bins s acc)).
Proof.
  induction bins as [|b bins IH]; intros s acc; simpl; [apply no_add_ext_refl|].
  destruct (w_lp w (st_log s) wallet b) as [bal|]; [|step_ext; apply IH].
  destruct (0 <? bal).
  - step_ext.
    destruct (w_bin w _ b) as [[bx by_]|]; step_ext; [|apply IH].
    destruct u; [destruct (get_position_by_bin _ _ _ _)|]; close_ext IH.
  - step_ext. close_ext IH.
Qed.

Lemma get_all_lp_balances_no_add (w : world) (s : state) (wallet : string)
    (sr : Z) (u : bool) :
  no_add_ext s (snd (get_all_lp_balances w s wallet sr u)).
Proof.
  unfold get_all_lp_balances, cache_phase, full_scan, get_active_bin.
  assert (Hc : no_add_ext s (snd (if u then
             match get_active_positions (st_db s) wallet POOL_ADDRESS with
             | [] => ([], s)
             | db_positions => cache_loop w wallet (w_active_id w (st_log s)) db_positions
                                 (issue s C_getActiveId) []
             end else ([], s)))).
  { destruct u; [|apply no_add_ext_refl].
    destruct (get_active_positions _ _ _); [apply no_add_ext_refl|].
    step_ext. apply cache_loop_no_add. }
  destruct (if u then _ else _) as [[|p ps] s1]; simpl in *.
  - eapply no_add_ext_trans; [exact Hc|]. step_ext. apply scan_loop_no_add.
  - exact Hc.
Qed.

(* ================================================================== *)
(** * Rebalance executor, phase 1 *)

(** C2 (as stated): a reverted withdrawal leaves the Position Store
    unchanged.  It does not: the position resolution that precedes the
    withdrawal already wrote the live amount of bin 1000 into the store. *)
Lemma rebalance_revert_changes_store :
  fst (rebalance_liquidity world_c2 state_c2 "0xA11CE" 1000) = false /\
  In (C_removeLiquidity WAVAX_ADDRESS BTCB_ADDRESS [1000] [2 * 10 ^ 18])
     (st_log (snd (rebalance_liquidity world_c2 state_c2 "0xA11CE" 1000))) /\
  st_db (snd (rebalance_liquidity world_c2 state_c2 "0xA11CE" 1000)) <> st_db state_c2.
Proof.
  split; [vm_compute; reflexivity|]. split; [vm_compute; tauto|].
  vm_compute. intros H. injection H as H _. discriminate H.
Qed.

(** C2 (amended): when phase 1 fails, [rebalance_liquidity] returns false,
    issues no add-liquidity call, records no operation, and leaves the
    Position Store exactly as the phase-1 position resolution left it. *)
Theorem rebalance_phase1_failure (w : world) (s : state) (account : string) (A : Z)
    (Hfail : fst (remove_all_liquidity w s account DEFAULT_BIN_SCAN_RANGE) = false) :
  rebalance_liquidity w s account A =
    (false, snd (remove_all_liquidity w s account DEFAULT_BIN_SCAN_RANGE)) /\
  no_add_ext s (snd (rebalance_liquidity w s account A)) /\
  st_db (snd (rebalance_liquidity w s account A)) =
    st_db (snd (get_all_lp_balances w s account DEFAULT_BIN_SCAN_RANGE true)).
Proof.
  assert (Hr : rebalance_liquidity w s account A =
               (false, snd (remove_all_liquidity w s account DEFAULT_BIN_SCAN_RANGE))).
  { unfold rebalance_liquidity.
    destruct (remove_all_liquidity w s account DEFAULT_BIN_SCAN_RANGE) as [ok s1].
    simpl in *. subst ok. reflexivity. }
  rewrite Hr. simpl. split; [reflexivity|].
  revert Hfail. unfold remove_all_liquidity.
  pose proof (get_all_lp_balances_no_add w s account DEFAULT_BIN_SCAN_RANGE true) as Hg.
  destruct (get_all_lp_balances w s account DEFAULT_BIN_SCAN_RANGE true) as [ps s1].
  simpl in *. destruct ps as [|p ps]; [intros _; split; [exact Hg | reflexivity]|].
  unfold approve_lp_tokens, send_tx.
  destruct (w_tx w (st_log s1) (C_setApprovalForAll ROUTER_ADDRESS)) as [[|]|];
    simpl; intros Hf;
    try (split; [eapply no_add_ext_trans; [exact Hg|]; apply no_add_ext_issue;
                 reflexivity | reflexivity]).
  destruct (w_tx w _ (C_removeLiquidity _ _ _ _)) as [[|]|]; simpl in *;
    [discriminate| |];
    (split; [eapply no_add_ext_trans; [exact Hg|]; step_ext; apply no_add_ext_issue;
             reflexivity | reflexivity]).
Qed.

Lemma rebalance_phase1_failure_witness :
  fst (remove_all_liquidity world_c2 state_c2 "0xA11CE" DEFAULT_BIN_SCAN_RANGE) = false /\
  rebalance_liquidity world_c2 state_c2 "0xA11CE" 1000 =
    (false, snd (remove_all_liquidity world_c2 state_c2 "0xA11CE" DEFAULT_BIN_SCAN_RANGE)).
Proof.
  assert (H : fst (remove_all_liquidity world_c2 state_c2 "0xA11CE"
                     DEFAULT_BIN_SCAN_RANGE) = false) by (vm_compute; reflexivity).
  split; [exact H|].
  exact (proj1 (rebalance_phase1_failure world_c2 state_c2 "0xA11CE" 1000 H)).
Defined.

(** C4: the withdrawal phase of [rebalance_liquidity] resolves positions
    with [scan_range=DEFAULT_BIN_SCAN_RANGE] (10), not a half-width in
    50..1000: with an empty store and a single position 20 bins above the
    active bin, it checks only bins 990..1010, finds nothing and aborts,
    while the removal menu's half-width [max(DEFAULT_BIN_SCAN_RANGE, 100)]
    finds and withdraws the position. *)
Theorem rebalance_scan_half_width :
  DEFAULT_BIN_SCAN_RANGE = 10 /\
  balance_checks (st_log (snd (rebalance_liquidity world_c4 (start empty_db) "0xA11CE" 1000)))
    = py_range 990 1011 /\
  fst (rebalance_liquidity world_c4 (start empty_db) "0xA11CE" 1000) = false /\
  fst (remove_all_liquidity world_c4 (start empty_db) "0xA11CE"
         (Z.max DEFAULT_BIN_SCAN_RANGE 100)) = true.
Proof. split; [reflexivity|]. split; [vm_compute; reflexivity|]. split; vm_compute; reflexivity. Qed.

(* ================================================================== *)
(** * The full-scan fallback *)

Lemma in_py_range (lo hi b : Z) : In b (py_range lo hi) <-> lo <= b < hi.
Proof.
  unfold py_range. rewrite in_map_iff. split.
  - intros (i & <- & Hi). apply in_seq in Hi. lia.
  - intros H. exists (Z.to_nat (b - lo)). split; [lia|]. apply in_seq. lia.
Qed.

Lemma NoDup_py_range (lo hi : Z) : NoDup (py_range lo hi).
Proof.
  unfold py_range. generalize (seq_NoDup (Z.to_nat (hi - lo)) 0).
  induction 1 as [|i l Hi _ IH]; simpl; constructor; [|exact IH].
  rewrite in_map_iff. intros (j & Hj & Hin). assert (j = i) by lia. subst. contradiction.
Qed.

Lemma scan_loop_checks (w : world) (wallet : string) (A : Z) (u : bool) (bins : list Z) :
  forall s acc, exists tail,
    st_log (snd (scan_loop w wallet A u bins s acc)) = st_log s ++ tail /\
    balance_checks tail = bins.
Proof.
  induction bins as [|b bins IH]; intros s acc; simpl.
  - exists []. rewrite app_nil_r. split; reflexivity.
  - set (s1 := issue s (C_balanceOf wallet b)).
    assert (K : forall s' pre, st_log s' = st_log s ++ C_balanceOf wallet b :: pre ->
                balance_checks pre = [] ->
                forall acc', exists tail,
                  st_log (snd (scan_loop w wallet A u bins s' acc')) = st_log s ++ tail /\
                  balance_checks tail = b :: bins).
    { intros s' pre Hs' Hpre acc'. destruct (IH s' acc') as (t & Ht & Hc).
      exists (C_balanceOf wallet b :: pre ++ t). rewrite Ht, Hs', <- app_assoc. split; [reflexivity|].
      simpl. clear - Hpre Hc. induction pre as [|c pre IHp]; simpl; [congruence|].
      destruct c; simpl in *; try discriminate; auto. }
    destruct (w_lp w (st_log s) wallet b) as [bal|]; [|apply (K s1 []); reflexivity].
    destruct (0 <? bal); [|apply (K s1 []); reflexivity].
    destruct (w_bin w _ b) as [[bx by_]|];
      [|apply (K _ [C_getBin b]); [simpl; rewrite <- app_assoc; reflexivity|reflexivity]].
    destruct u; [destruct (get_position_by_bin _ _ _ _)|];
      apply (K _ [C_getBin b]); (simpl; rewrite <- app_assoc; reflexivity) || reflexivity.
Qed.

(** C5 (as stated): the window is not [A - w, A + w]: with active bin 5 and
    half-width 10 the scan never checks bin -1. *)
Lemma full_scan_window_clamped :
  ~ (forall b, 5 - 10 <= b <= 5 + 10 ->
       In b (balance_checks (st_log (snd (full_scan world_c5 "0xA11CE" 10 true
                                              (start empty_db)))))).
Proof.
  intros H. specialize (H (-1) ltac:(lia)). vm_compute in H.
  repeat (destruct H as [H|H]; [discriminate H|]). exact H.
Qed.

(** C5 (amended): the full scan reads the active bin [A] and then issues
    exactly one balance check per bin of the window clamped at bin 0,
    [max(0, A - w) .. A + w], in increasing order. *)
Theorem full_scan_checks_window (w : world) (wallet : string) (sr : Z) (u : bool)
    (s : state) :
  let A := w_active_id w (st_log s) in
  exists tail,
    st_log (snd (full_scan w wallet sr u s)) = st_log s ++ C_getActiveId :: tail /\
    balance_checks tail = py_range (Z.max 0 (A - sr)) (A + sr + 1) /\
    (forall b, In b (balance_checks tail) <-> Z.max 0 (A - sr) <= b <= A + sr).
Proof.
  cbv zeta. unfold full_scan, get_active_bin. cbv iota beta zeta.
  set (A := w_active_id w (st_log s)).
  destruct (scan_loop_checks w wallet A u
              (py_range (Z.max 0 (A - sr)) (A + sr + 1)) (issue s C_getActiveId) [])
    as (t & Ht & Hc).
  exists t. split; [rewrite Ht; simpl; rewrite <- app_assoc; reflexivity|].
  split; [exact Hc|]. intros b. rewrite Hc, in_py_range. lia.
Qed.

(** ** Store lemmas *)

Lemma find_app {X : Type} (f : X -> bool) (l m : list X) :
  find f (l ++ m) = match find f l with Some x => Some x | None => find f m end.
Proof. induction l as [|x l IH]; simpl; [reflexivity|]. destruct (f x); auto. Qed.

Lemma gpb_unfold (d : db) (wallet : string) (b : Z) :
  get_position_by_bin d wallet b POOL_ADDRESS = find (gpb_key wallet b) (db_rows d).
Proof. reflexivity. Qed.

Lemma gpb_app_some (d : db) (extra : list row) (wallet : string) (b : Z) (r : row) :
  get_position_by_bin d wallet b POOL_ADDRESS = Some r ->
  find (gpb_key wallet b) (db_rows d ++ extra) = Some r.
Proof. rewrite gpb_unfold, find_app. intros ->. reflexivity. Qed.

Lemma gpb_add_other (d : db) (wallet : string) (b b0 : Z) (amt : Q) (tx ty : string) :
  b0 <> b ->
  get_position_by_bin (add_position d wallet b0 amt tx ty POOL_ADDRESS) wallet b POOL_ADDRESS =
  get_position_by_bin d wallet b POOL_ADDRESS.
Proof.
  intros Hne. rewrite !gpb_unfold. simpl. rewrite find_app.
  destruct (find _ (db_rows d)); [reflexivity|]. simpl. unfold gpb_key. simpl.
  destruct (b0 =? b) eqn:E; [apply Z.eqb_eq in E; contradiction|].
  rewrite andb_false_r. reflexivity.
Qed.

Lemma gpb_add_same (d : db) (wallet : string) (b : Z) (amt : Q) (tx ty : string) :
  get_position_by_bin d wallet b POOL_ADDRESS = None ->
  exists r, get_position_by_bin (add_position d wallet b amt tx ty POOL_ADDRESS)
              wallet b POOL_ADDRESS = Some r /\ row_amount r = amt.
Proof.
  rewrite !gpb_unfold. simpl. rewrite find_app. intros ->. simpl. unfold gpb_key. simpl.
  rewrite ?String.eqb_refl, ?Z.eqb_refl. simpl.
  eexists; split; reflexivity.
Qed.

(** The scan only appends rows to the position table. *)
Lemma scan_loop_rows_app (w : world) (wallet : string) (A : Z) (u : bool) (bins : list Z) :
  forall s acc, exists extra,
    db_rows (st_db (snd (scan_loop w wallet A u bins s acc))) = db_rows (st_db s) ++ extra.
Proof.
  induction bins as [|b bins IH]; intros s acc; simpl.
  - exists []. rewrite app_nil_r. reflexivity.
  - destruct (w_lp w (st_log s) wallet b) as [bal|];
      [destruct (0 <? bal); [destruct (w_bin w _ b) as [[bx by_]|];
                             [destruct u; [destruct (get_position_by_bin _ _ _ _)|]|]|]|];
    match goal with |- context [scan_loop _ _ _ _ _ ?s3 ?acc3] =>
      destruct (IH s3 acc3) as (e & He) end;
    rewrite He; simpl; rewrite ?app_nil_r, <- ?app_assoc; eexists; reflexivity.
Qed.

Lemma scan_loop_db_false (w : world) (wallet : string) (A : Z) (bins : list Z) :
  forall s acc, st_db (snd (scan_loop w wallet A false bins s acc)) = st_db s.
Proof.
  induction bins as [|b bins IH]; intros s acc; simpl; [reflexivity|].
  destruct (w_lp w (st_log s) wallet b) as [bal|];
    [destruct (0 <? bal); [destruct (w_bin w _ b) as [[bx by_]|]|]|];
    rewrite IH; reflexivity.
Qed.

Lemma scan_loop_gpb_keep (w : world) (wallet : string) (A : Z) (u : bool) (bins : list Z)
    (s : state) (acc : list position) (b : Z) (r : row) :
  get_position_by_bin (st_db s) wallet b POOL_ADDRESS = Some r ->
  get_position_by_bin (st_db (snd (scan_loop w wallet A u bins s acc))) wallet b POOL_ADDRESS
  = Some r.
Proof.
  intros H. destruct (scan_loop_rows_app w wallet A u bins s acc) as (e & He).
  rewrite gpb_unfold, He. apply gpb_app_some. exact H.
Qed.

(** C6 (as stated): the wide scan of the view menu
    ([get_all_lp_balances(..., scan_range=1000, use_db_first=False)])
    reports the untracked position at bin 1020 but upserts nothing. *)
Lemma view_scan_does_not_upsert :
  In 1020 (map p_bin_id (fst (get_all_lp_balances world_c4 (start empty_db) "0xA11CE" 1000 false))) /\
  get_position_by_bin (st_db (snd (get_all_lp_balances world_c4 (start empty_db) "0xA11CE" 1000 false)))
    "0xA11CE" 1020 POOL_ADDRESS = None.
Proof. split; vm_compute; [tauto | reflexivity]. Qed.

Lemma NoDup_split_not_in {X : Type} (l1 l2 : list X) (x : X) :
  NoDup (l1 ++ x :: l2) -> ~ In x l1 /\ ~ In x l2.
Proof.
  intros H. apply NoDup_remove_2 in H. split; intros Hx; apply H, in_app_iff; tauto.
Qed.

Lemma scan_loop_app (w : world) (wallet : string) (A : Z) (u : bool) (l1 l2 : list Z) :
  forall s acc,
  scan_loop w wallet A u (l1 ++ l2) s acc =
  scan_loop w wallet A u l2 (snd (scan_loop w wallet A u l1 s acc))
            (fst (scan_loop w wallet A u l1 s acc)).
Proof.
  induction l1 as [|b l1 IH]; intros s acc; [reflexivity|]. simpl.
  destruct (w_lp w (st_log s) wallet b) as [bal|]; [|apply IH].
  destruct (0 <? bal); [|apply IH].
  destruct (w_bin w _ b) as [[bx by_]|]; [|apply IH].
  destruct u; [destruct (get_position_by_bin _ _ _ _)|]; apply IH.
Qed.

(** The scan does not touch the lookup of a bin it does not visit. *)
Lemma scan_loop_gpb_other (w : world) (wallet : string) (A b : Z) (u : bool) (l : list Z) :
  forall s acc, ~ In b l ->
  get_position_by_bin (st_db (snd (scan_loop w wallet A u l s acc))) wallet b POOL_ADDRESS =
  get_position_by_bin (st_db s) wallet b POOL_ADDRESS.
Proof.
  induction l as [|b0 l IH]; intros s acc Hn; simpl; [reflexivity|].
  assert (Hne : b0 <> b) by (intros E; apply Hn; left; exact E).
  assert (Hn' : ~ In b l) by (intros H; apply Hn; right; exact H).
  destruct (w_lp w (st_log s) wallet b0) as [bal|]; [|rewrite IH by exact Hn'; reflexivity].
  destruct (0 <? bal); [|rewrite IH by exact Hn'; reflexivity].
  destruct (w_bin w _ b0) as [[bx by_]|]; [|rewrite IH by exact Hn'; reflexivity].
  destruct u; [destruct (get_position_by_bin _ _ b0 _)|];
    rewrite IH by exact Hn'; cbn [st_db with_db issue]; [reflexivity| |reflexivity].
  apply gpb_add_other. exact Hne.
Qed.

(** The state the full scan has reached when it comes to the bins after
    [pre] of its window. *)
Definition scan_state_before (w : world) (wallet : string) (u : bool) (s : state)
    (pre : list Z) : state :=
  snd (scan_loop w wallet (w_active_id w (st_log s)) u pre (issue s C_getActiveId) []).

(** C6 (amended): on any chain, in a full scan run with
    [use_db_first = True], every bin of the window whose balance read is
    positive and whose reserve read succeeds has an active store record when
    the scan ends; when it had none before, the inserted record carries the
    live amount.  With [use_db_first = False] the scan leaves the store
    untouched. *)
Theorem full_scan_upserts (w : world) (wallet : string) (sr : Z) (s : state) :
  (forall (pre post : list Z) (b bal : Z) (xy : Z * Z),
     py_range (Z.max 0 (w_active_id w (st_log s) - sr)) (w_active_id w (st_log s) + sr + 1) =
       pre ++ b :: post ->
     w_lp w (st_log (scan_state_before w wallet true s pre)) wallet b = Some bal ->
     0 < bal ->
     w_bin w (st_log (scan_state_before w wallet true s pre) ++ [C_balanceOf wallet b]) b =
       Some xy ->
     exists r,
       get_position_by_bin (st_db (snd (full_scan w wallet sr true s))) wallet b POOL_ADDRESS
         = Some r /\
       (get_position_by_bin (st_db s) wallet b POOL_ADDRESS = None ->
        row_amount r = lp_of_wei bal)) /\
  st_db (snd (full_scan w wallet sr false s)) = st_db s.
Proof.
  split; [|exact (scan_loop_db_false w wallet _ _ (issue s C_getActiveId) [])].
  intros pre post b bal [bx by_] Hw Hlp Hpos Hbin.
  assert (Hnd : NoDup (pre ++ b :: post)) by (rewrite <- Hw; apply NoDup_py_range).
  apply NoDup_split_not_in in Hnd. destruct Hnd as [Hpre Hpost].
  unfold full_scan, get_active_bin. cbv beta iota zeta.
  rewrite Hw, scan_loop_app.
  assert (Hg : get_position_by_bin (st_db (scan_state_before w wallet true s pre)) wallet b
                 POOL_ADDRESS = get_position_by_bin (st_db s) wallet b POOL_ADDRESS).
  { unfold scan_state_before. rewrite scan_loop_gpb_other by exact Hpre. reflexivity. }
  fold (scan_state_before w wallet true s pre).
  set (sb := scan_state_before w wallet true s pre) in *.
  cbn [scan_loop]. unfold read_lp. rewrite Hlp.
  apply Z.ltb_lt in Hpos. rewrite Hpos. unfold read_bin. cbn [st_log issue]. rewrite Hbin.
  rewrite scan_loop_gpb_other by exact Hpost.
  change (st_db (issue (issue sb (C_balanceOf wallet b)) (C_getBin b))) with (st_db sb).
  rewrite Hg.
  destruct (get_position_by_bin (st_db s) wallet b POOL_ADDRESS) as [r|] eqn:G.
  - exists r. split; [exact Hg | discriminate].
  - cbn [st_db with_db issue].
    destruct (gpb_add_same (st_db sb) wallet b (lp_of_wei bal) (w_token_x w) (w_token_y w) Hg)
      as (r & Hr & Ha).
    exists r. split; [exact Hr | intros _; exact Ha].
Qed.

Lemma full_scan_upserts_witness :
  py_range (Z.max 0 (w_active_id world_c4 [] - 50)) (w_active_id world_c4 [] + 50 + 1) =
    py_range 950 1020 ++ 1020 :: py_range 1021 1051 /\
  w_lp world_c4 (st_log (scan_state_before world_c4 "0xA11CE" true (start empty_db)
                           (py_range 950 1020))) "0xA11CE" 1020 = Some (10 ^ 18) /\
  exists r,
    get_position_by_bin (st_db (snd (full_scan world_c4 "0xA11CE" 50 true (start empty_db))))
      "0xA11CE" 1020 POOL_ADDRESS = Some r /\
    (get_position_by_bin (st_db (start empty_db)) "0xA11CE" 1020 POOL_ADDRESS = None ->
     row_amount r = lp_of_wei (10 ^ 18)).
Proof.
  assert (Hw : py_range (Z.max 0 (w_active_id world_c4 [] - 50)) (w_active_id world_c4 [] + 50 + 1)
               = py_range 950 1020 ++ 1020 :: py_range 1021 1051) by (vm_compute; reflexivity).
  assert (Hl : w_lp world_c4 (st_log (scan_state_before world_c4 "0xA11CE" true (start empty_db)
                                  (py_range 950 1020))) "0xA11CE" 1020 = Some (10 ^ 18))
    by reflexivity.
  split; [exact Hw|]. split; [exact Hl|].
  exact (proj1 (full_scan_upserts world_c4 "0xA11CE" 50 (start empty_db))
           (py_range 950 1020) (py_range 1021 1051) 1020 (10 ^ 18) (7, 9) Hw Hl
           ltac:(lia) eq_refl).
Defined.

(* ================================================================== *)
(** * Position resolution against a fixed chain *)

Ltac static_rw Hst :=
  repeat match goal with
  | |- context [w_lp ?w ?h] =>
      lazymatch h with [] => fail | _ => rewrite (proj1 (proj2 (Hst h))) end
  | |- context [w_bin ?w ?h] =>
      lazymatch h with [] => fail | _ => rewrite (proj2 (proj2 (Hst h))) end
  | |- context [w_active_id ?w ?h] =>
      lazymatch h with [] => fail | _ => rewrite (proj1 (Hst h)) end
  end.

Section FixedChain.
Variable w : world.
Hypothesis Hst : static_world w.
Variable wallet : string.

Lemma cache_loop_emit (A : Z) (L : list row) :
  forall s acc, fst (cache_loop w wallet A L s acc) = acc ++ emits w wallet A (map row_bin L).
Proof.
  induction L as [|q L IH]; intros s acc; simpl; [rewrite app_nil_r; reflexivity|].
  static_rw Hst. unfold emits at 1. simpl. unfold emit at 1.
  destruct (w_lp w [] wallet (row_bin q)) as [bal|]; [|apply IH].
  destruct (0 <? bal); [|apply IH].
  destruct (w_bin w [] (row_bin q)) as [[bx by_]|]; [|apply IH].
  destruct (Qgtb _ _); rewrite IH, <- app_assoc; reflexivity.
Qed.

Lemma scan_loop_emit (A : Z) (u : bool) (bins : list Z) :
  forall s acc, fst (scan_loop w wallet A u bins s acc) = acc ++ emits w wallet A bins.
Proof.
  induction bins as [|b bins IH]; intros s acc; simpl; [rewrite app_nil_r; reflexivity|].
  static_rw Hst. unfold emits at 1. simpl. unfold emit at 1.
  destruct (w_lp w [] wallet b) as [bal|]; [|apply IH].
  destruct (0 <? bal); [|apply IH].
  destruct (w_bin w [] b) as [[bx by_]|]; [|apply IH].
  destruct u; [destruct (get_position_by_bin _ _ _ _)|];
    rewrite IH, <- app_assoc; reflexivity.
Qed.

Lemma cache_loop_step (A : Z) (q : row) (L : list row) (s : state) (acc : list position) :
  exists s' acc',
    cache_loop w wallet A (q :: L) s acc = cache_loop w wallet A L s' acc' /\
    db_rows (st_db s') = map (upd_one w wallet q) (db_rows (st_db s)).
Proof.
  simpl. static_rw Hst.
  unfold upd_one, step_eff.
  assert (Hid : forall rs : list row,
            rs = map (fun r => if row_id r =? row_id q then r else r) rs).
  { intros rs. rewrite <- (map_id rs) at 1. apply map_ext. intros r.
    destruct (row_id r =? row_id q); reflexivity. }
  destruct (w_lp w [] wallet (row_bin q)) as [bal|];
    [destruct (0 <? bal);
     [destruct (w_bin w [] (row_bin q)) as [[bx by_]|]; [destruct (Qgtb _ _)|]|]|];
    do 2 eexists; (split; [reflexivity | first [reflexivity | apply Hid]]).
Qed.

Lemma step_eff_id (q r : row) : row_id (step_eff w wallet q r) = row_id r.
Proof.
  unfold step_eff. destruct (w_lp w [] wallet (row_bin q)) as [bal|]; [|reflexivity].
  destruct (0 <? bal); [|reflexivity].
  destruct (w_bin w [] (row_bin q)); [destruct (Qgtb _ _)|]; reflexivity.
Qed.

Lemma cache_loop_rows (A : Z) (L : list row) :
  NoDup (map row_id L) -> forall s acc,
  db_rows (st_db (snd (cache_loop w wallet A L s acc))) =
  map (cache_eff w wallet L) (db_rows (st_db s)).
Proof.
  induction L as [|q L IH]; intros Hnd s acc.
  - simpl. symmetry. apply map_id.
  - inversion Hnd as [|? ? Hq Hnd']; subst.
    destruct (cache_loop_step A q L s acc) as (s' & acc' & -> & Hs').
    rewrite (IH Hnd' s' acc'), Hs', map_map. apply map_ext. intros r.
    unfold upd_one, cache_eff. simpl.
    destruct (row_id r =? row_id q) eqn:E.
    + apply Z.eqb_eq in E. rewrite E, Z.eqb_refl.
      rewrite step_eff_id, E.
      destruct (find (fun q0 => row_id q0 =? row_id q) L) as [q'|] eqn:F; [|reflexivity].
      apply find_some in F. destruct F as [Hin Hf]. apply Z.eqb_eq in Hf.
      exfalso. apply Hq. rewrite <- Hf. apply in_map. exact Hin.
    + rewrite Z.eqb_sym, E. reflexivity.
Qed.

End FixedChain.

Lemma NoDup_map_inj {X Y : Type} (f : X -> Y) (l : list X) (x y : X) :
  NoDup (map f l) -> In x l -> In y l -> f x = f y -> x = y.
Proof.
  induction l as [|a l IH]; simpl; [tauto|]. intros Hnd Hx Hy E.
  inversion Hnd as [|? ? Ha Hnd']; subst.
  destruct Hx as [<-|Hx], Hy as [<-|Hy]; auto.
  - exfalso. apply Ha. rewrite E. apply in_map. exact Hy.
  - exfalso. apply Ha. rewrite <- E. apply in_map. exact Hx.
Qed.

Lemma NoDup_map_filter {X Y : Type} (f : X -> Y) (p : X -> bool) (l : list X) :
  NoDup (map f l) -> NoDup (map f (filter p l)).
Proof.
  induction l as [|a l IH]; simpl; [auto|]. intros Hnd.
  inversion Hnd as [|? ? Ha Hnd']; subst.
  destruct (p a); simpl; [|auto]. constructor; [|auto].
  intros Hin. apply Ha. apply in_map_iff in Hin. destruct Hin as (x & Ex & Hx).
  apply filter_In in Hx. rewrite <- Ex. apply in_map. apply Hx.
Qed.

Lemma find_id_filter (rows : list row) (wallet : string) (r : row) :
  NoDup (map row_id rows) -> In r rows ->
  find (fun q => row_id q =? row_id r) (filter (act wallet) rows) =
  if act wallet r then Some r else None.
Proof.
  intros Hnd Hin.
  destruct (find (fun q => row_id q =? row_id r) (filter (act wallet) rows)) as [q|] eqn:F.
  - apply find_some in F. destruct F as [Hq Hf]. apply filter_In in Hq.
    destruct Hq as [Hq Ha]. apply Z.eqb_eq in Hf.
    assert (q = r) by exact (NoDup_map_inj row_id rows q r Hnd Hq Hin Hf). subst.
    rewrite Ha. reflexivity.
  - destruct (act wallet r) eqn:Ha; [|reflexivity].
    pose proof (find_none _ _ F r) as H. rewrite filter_In, Z.eqb_refl in H.
    specialize (H (conj Hin Ha)). discriminate.
Qed.

Lemma get_active_positions_act (d : db) (wallet : string) :
  get_active_positions d wallet POOL_ADDRESS = filter (act wallet) (db_rows d).
Proof. reflexivity. Qed.

Lemma act_set_amount (wallet : string) (r : row) (a : Q) (b : bool) :
  act wallet r = true -> act wallet (set_amount r a b) = b.
Proof.
  unfold act. simpl. intros H. apply andb_true_iff in H as [H1 H2].
  apply andb_true_iff in H1 as [H1 _]. rewrite H1, H2. destruct b; reflexivity.
Qed.

Lemma filter_map_bins (wallet : string) (p : Z -> bool) (g : row -> row) (rows : list row) :
  (forall r, In r rows -> act wallet (g r) = act wallet r && p (row_bin r) /\
                          row_bin (g r) = row_bin r) ->
  map row_bin (filter (act wallet) (map g rows)) =
  filter p (map row_bin (filter (act wallet) rows)).
Proof.
  induction rows as [|r rows IH]; intros H; simpl; [reflexivity|].
  destruct (H r (or_introl eq_refl)) as [Ha Hb].
  assert (IH' := IH (fun x Hx => H x (or_intror Hx))).
  rewrite Ha. destruct (act wallet r); simpl;
    [destruct (p (row_bin r)); simpl; rewrite ?Hb, IH'; reflexivity
    | rewrite IH'; reflexivity].
Qed.

Lemma memZ_app (b : Z) (l m : list Z) : memZ b (l ++ m) = memZ b l || memZ b m.
Proof. unfold memZ. apply existsb_app. Qed.

Lemma gpb_None_iff (d : db) (wallet : string) (b : Z) :
  get_position_by_bin d wallet b POOL_ADDRESS = None <->
  memZ b (active_bins d wallet) = false.
Proof.
  rewrite gpb_unfold. unfold active_bins. rewrite get_active_positions_act.
  induction (db_rows d) as [|r rows IH]; simpl; [split; reflexivity|].
  assert (K : gpb_key wallet b r = act wallet r && (row_bin r =? b)).
  { unfold gpb_key, act.
    destruct (String.eqb _ _), (row_bin r =? b), (row_active r), (String.eqb (row_pool r) _);
      reflexivity. }
  rewrite K. destruct (act wallet r); simpl.
  - rewrite Z.eqb_sym. destruct (b =? row_bin r); simpl; [split; discriminate|exact IH].
  - exact IH.
Qed.

Lemma active_bins_add (d : db) (wallet : string) (b : Z) (amt : Q) (tx ty : string) :
  active_bins (add_position d wallet b amt tx ty POOL_ADDRESS) wallet =
  active_bins d wallet ++ [b].
Proof.
  unfold active_bins. rewrite !get_active_positions_act. simpl.
  rewrite filter_app, map_app. unfold act at 2. simpl.
  rewrite !String.eqb_refl. reflexivity.
Qed.

Section FixedStore.
Variable w : world.
Hypothesis Hst : static_world w.
Variable wallet : string.

Lemma scan_loop_active_bins (A : Z) (bins : list Z) :
  NoDup bins -> forall s acc,
  active_bins (st_db (snd (scan_loop w wallet A true bins s acc))) wallet =
  active_bins (st_db s) wallet ++
  filter (fun b => isSome (emit w wallet A b) && negb (memZ b (active_bins (st_db s) wallet)))
         bins.
Proof.
  induction bins as [|b0 bins IH]; intros Hnd s acc; simpl; [rewrite app_nil_r; reflexivity|].
  inversion Hnd as [|? ? Hb0 Hnd']; subst.
  static_rw Hst. unfold emit at 1.
  assert (Kid : forall s', st_db s' = st_db s -> forall acc',
     active_bins (st_db (snd (scan_loop w wallet A true bins s' acc'))) wallet =
     active_bins (st_db s) wallet ++
     filter (fun b => isSome (emit w wallet A b) &&
                      negb (memZ b (active_bins (st_db s) wallet))) bins).
  { intros s' Hs' acc'. rewrite (IH Hnd' s' acc'), Hs'. reflexivity. }
  destruct (w_lp w [] wallet b0) as [bal|]; [|apply Kid; reflexivity].
  destruct (0 <? bal); [|apply Kid; reflexivity].
  destruct (w_bin w [] b0) as [[bx by_]|]; [|apply Kid; reflexivity]. simpl.
  destruct (get_position_by_bin (st_db s) wallet b0 POOL_ADDRESS) as [r0|] eqn:G.
  - assert (Hm : memZ b0 (active_bins (st_db s) wallet) = true).
    { destruct (memZ b0 _) eqn:M; [reflexivity|]. apply gpb_None_iff in M. congruence. }
    rewrite Hm. simpl. apply Kid. reflexivity.
  - apply gpb_None_iff in G. rewrite G. simpl.
    rewrite (IH Hnd'). simpl. rewrite active_bins_add, <- app_assoc. simpl. f_equal. f_equal.
    apply filter_ext_in. intros b Hb. rewrite memZ_app. simpl.
    destruct (b =? b0) eqn:E; [apply Z.eqb_eq in E; subst; contradiction|].
    rewrite orb_false_r. reflexivity.
Qed.

Lemma cache_phase_emit (s : state) :
  fst (cache_phase w wallet true s) =
  emits w wallet (w_active_id w []) (active_bins (st_db s) wallet).
Proof.
  unfold cache_phase, active_bins.
  destruct (get_active_positions (st_db s) wallet POOL_ADDRESS) as [|q L] eqn:E;
    [reflexivity|].
  unfold get_active_bin. cbv iota beta zeta. static_rw Hst.
  rewrite cache_loop_emit by exact Hst. reflexivity.
Qed.

Lemma cache_phase_rows (s : state) :
  NoDup (map row_id (db_rows (st_db s))) ->
  db_rows (st_db (snd (cache_phase w wallet true s))) =
  map (cache_eff w wallet (filter (act wallet) (db_rows (st_db s)))) (db_rows (st_db s)).
Proof.
  intros Hnd. unfold cache_phase. rewrite get_active_positions_act.
  destruct (filter (act wallet) (db_rows (st_db s))) as [|q L] eqn:E.
  - simpl. symmetry. apply map_id.
  - unfold get_active_bin. cbv iota beta zeta.
    rewrite (cache_loop_rows w Hst wallet); [reflexivity|].
    rewrite <- E. apply NoDup_map_filter. exact Hnd.
Qed.

Lemma cache_eff_active (rows : list row) (r : row) :
  NoDup (map row_id rows) -> In r rows ->
  act wallet (cache_eff w wallet (filter (act wallet) rows) r) =
    act wallet r && notdead w wallet (row_bin r) /\
  row_bin (cache_eff w wallet (filter (act wallet) rows) r) = row_bin r.
Proof.
  intros Hnd Hin. unfold cache_eff. rewrite (find_id_filter rows wallet r Hnd Hin).
  destruct (act wallet r) eqn:Ha; [|split; [exact Ha | reflexivity]].
  unfold step_eff, notdead. simpl.
  destruct (w_lp w [] wallet (row_bin r)) as [bal|]; [|split; [exact Ha | reflexivity]].
  destruct (0 <? bal).
  - destruct (w_bin w [] (row_bin r)); [destruct (Qgtb _ _)|];
      (split; [try apply act_set_amount; exact Ha | reflexivity]).
  - split; [apply act_set_amount; exact Ha | reflexivity].
Qed.

Lemma cache_phase_active_bins (s : state) :
  NoDup (map row_id (db_rows (st_db s))) ->
  active_bins (st_db (snd (cache_phase w wallet true s))) wallet =
  filter (notdead w wallet) (active_bins (st_db s) wallet).
Proof.
  intros Hnd. unfold active_bins at 1. rewrite get_active_positions_act, cache_phase_rows
    by exact Hnd.
  apply filter_map_bins. intros r Hr. apply cache_eff_active; assumption.
Qed.

End FixedStore.

(** ** Resolution on a fixed chain, end to end *)

Lemma emits_in (w : world) (wallet : string) (A : Z) (bins : list Z) (p : position) :
  In p (emits w wallet A bins) -> In (p_bin_id p) bins /\ emit w wallet A (p_bin_id p) = Some p.
Proof.
  unfold emits. rewrite in_flat_map. intros (b & Hb & Hp).
  destruct (emit w wallet A b) as [p'|] eqn:E; [|destruct Hp].
  destruct Hp as [<-|[]].
  assert (Hid : p_bin_id p' = b).
  { unfold emit in E.
    destruct (w_lp w [] wallet b); [|discriminate]. destruct (0 <? z); [|discriminate].
    destruct (w_bin w [] b) as [[bx by_]|]; [|discriminate].
    injection E as <-. reflexivity. }
  rewrite Hid. split; assumption.
Qed.

Lemma in_emits (w : world) (wallet : string) (A : Z) (bins : list Z) (b : Z) (p : position) :
  In b bins -> emit w wallet A b = Some p -> In p (emits w wallet A bins).
Proof.
  intros Hb He. unfold emits. apply in_flat_map. exists b. rewrite He. split; [exact Hb|left; reflexivity].
Qed.

Lemma find_map_row {X : Type} (f : X -> bool) (g : X -> X) (l : list X) :
  (forall x, f (g x) = f x) -> find f (map g l) = option_map g (find f l).
Proof.
  intros H. induction l as [|x l IH]; simpl; [reflexivity|]. rewrite H.
  destruct (f x); [reflexivity | exact IH].
Qed.

Lemma find_id_in (rows : list row) (r : row) :
  NoDup (map row_id rows) -> In r rows -> find (fun q => row_id q =? row_id r) rows = Some r.
Proof.
  intros Hnd Hin.
  destruct (find (fun q => row_id q =? row_id r) rows) as [q|] eqn:F.
  - apply find_some in F. destruct F as [Hq Hf]. apply Z.eqb_eq in Hf.
    f_equal. exact (NoDup_map_inj row_id rows q r Hnd Hq Hin Hf).
  - pose proof (find_none _ _ F r Hin) as H. cbv beta in H. rewrite Z.eqb_refl in H.
    discriminate.
Qed.

Lemma cache_eff_id (w : world) (wallet : string) (L : list row) (r : row) :
  row_id (cache_eff w wallet L r) = row_id r.
Proof.
  unfold cache_eff. destruct (find _ L); [apply step_eff_id | reflexivity].
Qed.

Section FixedResolution.
Variable w : world.
Hypothesis Hst : static_world w.
Variable wallet : string.

Lemma full_scan_emit (sr : Z) (u : bool) (s : state) :
  fst (full_scan w wallet sr u s) =
  emits w wallet (w_active_id w [])
    (py_range (Z.max 0 (w_active_id w [] - sr)) (w_active_id w [] + sr + 1)).
Proof.
  unfold full_scan, get_active_bin. cbv iota beta zeta. static_rw Hst.
  rewrite scan_loop_emit by exact Hst. reflexivity.
Qed.

(** With [use_db_first = True], the result is that of the cache phase
    whenever the cache phase emits something, and the full scan run after
    it otherwise. *)
Lemma get_all_true_cases (sr : Z) (s : state) :
  get_all_lp_balances w s wallet sr true =
  match emits w wallet (w_active_id w []) (active_bins (st_db s) wallet) with
  | [] => full_scan w wallet sr true (snd (cache_phase w wallet true s))
  | E => (E, snd (cache_phase w wallet true s))
  end.
Proof.
  unfold get_all_lp_balances. rewrite <- (cache_phase_emit w Hst wallet s).
  destruct (cache_phase w wallet true s) as [ps s1]. simpl.
  destruct ps; reflexivity.
Qed.

End FixedResolution.

(** ** The database-first loop on an arbitrary chain *)

Lemma cache_loop_app (w : world) (wallet : string) (A : Z) (l1 l2 : list row) :
  forall s acc,
  cache_loop w wallet A (l1 ++ l2) s acc =
  cache_loop w wallet A l2 (snd (cache_loop w wallet A l1 s acc))
             (fst (cache_loop w wallet A l1 s acc)).
Proof.
  induction l1 as [|q l1 IH]; intros s acc; [reflexivity|]. simpl.
  destruct (w_lp w (st_log s) wallet (row_bin q)) as [bal|]; [|apply IH].
  destruct (0 <? bal); [|apply IH].
  destruct (w_bin w _ (row_bin q)) as [[bx by_]|]; [|apply IH].
  destruct (Qgtb _ _); apply IH.
Qed.

Lemma cache_loop_acc (w : world) (wallet : string) (A : Z) (l : list row) :
  forall s acc, exists ext, fst (cache_loop w wallet A l s acc) = acc ++ ext.
Proof.
  induction l as [|q l IH]; intros s acc; simpl.
  - exists []. rewrite app_nil_r. reflexivity.
  - destruct (w_lp w (st_log s) wallet (row_bin q)) as [bal|]; [|apply IH].
    destruct (0 <? bal); [|apply IH].
    destruct (w_bin w _ (row_bin q)) as [[bx by_]|]; [|apply IH].
    match goal with |- context [cache_loop _ _ _ _ ?s3 (acc ++ [?p])] =>
      destruct (IH s3 (acc ++ [p])) as (e & He) end.
    rewrite He, <- app_assoc. eexists; reflexivity.
Qed.

Lemma find_id_update (d : db) (j i : Z) (amt : Q) (a : bool) :
  find (fun r => row_id r =? i) (db_rows (update_position d j amt a)) =
  option_map (fun r => if row_id r =? j then set_amount r amt a else r)
             (find (fun r => row_id r =? i) (db_rows d)).
Proof.
  unfold update_position, set_rows. cbn [db_rows]. apply find_map_row.
  intros x. destruct (row_id x =? j); reflexivity.
Qed.

Lemma find_id_update_other (d : db) (j i : Z) (amt : Q) (a : bool) :
  j <> i ->
  find (fun r => row_id r =? i) (db_rows (update_position d j amt a)) =
  find (fun r => row_id r =? i) (db_rows d).
Proof.
  intros Hne. rewrite find_id_update.
  destruct (find (fun r => row_id r =? i) (db_rows d)) as [r|] eqn:F; [|reflexivity].
  apply find_some in F. destruct F as [_ F]. apply Z.eqb_eq in F. simpl.
  destruct (Z.eqb_spec (row_id r) j); [congruence | reflexivity].
Qed.

(** Records of other ids are not touched by the loop. *)
Lemma cache_loop_find_other (w : world) (wallet : string) (A i : Z) (l : list row) :
  forall s acc, (forall q, In q l -> row_id q <> i) ->
  find (fun r => row_id r =? i) (db_rows (st_db (snd (cache_loop w wallet A l s acc)))) =
  find (fun r => row_id r =? i) (db_rows (st_db s)).
Proof.
  induction l as [|q l IH]; intros s acc Hl; simpl; [reflexivity|].
  assert (Hq : row_id q <> i) by (apply Hl; left; reflexivity).
  assert (Hl' : forall q', In q' l -> row_id q' <> i) by (intros q' H; apply Hl; right; exact H).
  destruct (w_lp w (st_log s) wallet (row_bin q)) as [bal|]; [|rewrite IH by exact Hl'; reflexivity].
  destruct (0 <? bal).
  - destruct (w_bin w _ (row_bin q)) as [[bx by_]|]; [|rewrite IH by exact Hl'; reflexivity].
    destruct (Qgtb _ _); rewrite IH by exact Hl'; cbn [st_db with_db issue];
      [apply find_id_update_other; exact Hq | reflexivity].
  - rewrite IH by exact Hl'. cbn [st_db with_db issue]. unfold deactivate_position.
    apply find_id_update_other. exact Hq.
Qed.

Lemma cache_phase_loop (w : world) (wallet : string) (s : state) (pre post : list row)
    (pos : row) :
  get_active_positions (st_db s) wallet POOL_ADDRESS = pre ++ pos :: post ->
  cache_phase w wallet true s =
  cache_loop w wallet (w_active_id w (st_log s)) (pre ++ pos :: post) (issue s C_getActiveId) [].
Proof. intros H. unfold cache_phase, get_active_bin. rewrite H. destruct pre; reflexivity. Qed.

(** The ids of the tracked records other than [pos] differ from its id. *)
Lemma split_ids_other (d : db) (wallet : string) (pre post : list row) (pos : row) :
  NoDup (map row_id (db_rows d)) ->
  get_active_positions d wallet POOL_ADDRESS = pre ++ pos :: post ->
  (forall q, In q pre -> row_id q <> row_id pos) /\
  (forall q, In q post -> row_id q <> row_id pos) /\ In pos (db_rows d).
Proof.
  intros Hnd Hs.
  assert (H : NoDup (map row_id (pre ++ pos :: post))).
  { rewrite <- Hs. unfold get_active_positions. apply NoDup_map_filter. exact Hnd. }
  rewrite map_app in H. cbn [map] in H. apply NoDup_split_not_in in H. destruct H as [H1 H2].
  split; [|split].
  - intros q Hq E. apply H1. rewrite <- E. apply in_map. exact Hq.
  - intros q Hq E. apply H2. rewrite <- E. apply in_map. exact Hq.
  - assert (Hin : In pos (get_active_positions d wallet POOL_ADDRESS))
      by (rewrite Hs; apply in_app_iff; right; left; reflexivity).
    unfold get_active_positions in Hin. apply filter_In in Hin. exact (proj1 Hin).
Qed.

(** The state after the database-first loop has run over [pre]. *)
Definition cache_state_before (w : world) (wallet : string) (s : state) (pre : list row)
  : state :=
  snd (cache_loop w wallet (w_active_id w (st_log s)) pre (issue s C_getActiveId) []).

(** Whatever [get_all_lp_balances] returns, its store extends the store the
    database-first loop leaves behind. *)
Lemma get_all_rows_after_cache (w : world) (wallet : string) (sr : Z) (s : state) :
  exists extra,
    db_rows (st_db (snd (get_all_lp_balances w s wallet sr true))) =
    db_rows (st_db (snd (cache_phase w wallet true s))) ++ extra.
Proof.
  unfold get_all_lp_balances.
  destruct (cache_phase w wallet true s) as [ps s1].
  destruct ps as [|p ps]; cbn [snd].
  - unfold full_scan, get_active_bin. cbv beta iota zeta.
    destruct (scan_loop_rows_app w wallet (w_active_id w (st_log s1)) true
                (py_range (Z.max 0 (w_active_id w (st_log s1) - sr))
                          (w_active_id w (st_log s1) + sr + 1)) (issue s1 C_getActiveId) [])
      as (e & He).
    exists e. exact He.
  - exists []. rewrite app_nil_r. reflexivity.
Qed.

(** C3 (as stated): the code compares the amounts in binary64 floating
    point, so the 1e-6 threshold is not the exact one.  A record stored
    with amount 2 and a live balance of 2000000999999999950 wei (exactly
    1e-6 - 5e-17 away) is updated, and a record stored with amount 1 and a
    live balance of 1000001000000000001 wei (more than 1e-6 away) is kept. *)
Lemma cache_update_threshold_is_float :
  Qle_bool (Qabs (2 - inject_Z 2000000999999999950 / inject_Z (10 ^ 18))) (1 # 1000000) = true /\
  find (fun r => row_id r =? 1)
       (db_rows (st_db (snd (get_all_lp_balances world_c3x state_c3x "0xA11CE" 50 true)))) =
  Some (set_amount (tracked_row 1 1000 2) (lp_of_wei 2000000999999999950) true) /\
  Qeq_bool (lp_of_wei 2000000999999999950) 2 = false /\
  Qle_bool (Qabs (1 - inject_Z 1000001000000000001 / inject_Z (10 ^ 18))) (1 # 1000000) = false /\
  find (fun r => row_id r =? 1)
       (db_rows (st_db (snd (get_all_lp_balances world_c3y state_c3y "0xA11CE" 50 true)))) =
  Some (tracked_row 1 1000 1).
Proof. repeat split; vm_compute; reflexivity. Qed.

(** C3 (amended): in the database-first path, on any chain, take the
    stored active record [pos] met after the records [pre].  If the live
    balance read for its bin is positive and the reserve read succeeds, a
    position carrying the live balance, the live reserves and the distance
    [bin - active_id] is returned, and the record afterwards holds the live
    amount when [abs(amount - balance / 10**18) > 0.000001] evaluated in
    binary64 floating point, and is unchanged otherwise.  If the live
    balance is zero, the record ends up deactivated and that iteration
    emits nothing. *)
Theorem cache_path_position (w : world) (wallet : string) (sr : Z) (s : state)
    (pre post : list row) (pos : row) (bal : Z) :
  NoDup (map row_id (db_rows (st_db s))) ->
  get_active_positions (st_db s) wallet POOL_ADDRESS = pre ++ pos :: post ->
  w_lp w (st_log (cache_state_before w wallet s pre)) wallet (row_bin pos) = Some bal ->
  (forall bx by_, 0 < bal ->
     w_bin w (st_log (cache_state_before w wallet s pre) ++ [C_balanceOf wallet (row_bin pos)])
       (row_bin pos) = Some (bx, by_) ->
     In (mk_position w (row_bin pos) bal bx by_ (w_active_id w (st_log s)))
        (fst (get_all_lp_balances w s wallet sr true)) /\
     find (fun r => row_id r =? row_id pos)
          (db_rows (st_db (snd (get_all_lp_balances w s wallet sr true)))) =
     Some (if Qgtb (Qabs (fsub (row_amount pos) (lp_of_wei bal))) AMOUNT_EPSILON
           then set_amount pos (lp_of_wei bal) true else pos)) /\
  (bal = 0 ->
     find (fun r => row_id r =? row_id pos)
          (db_rows (st_db (snd (get_all_lp_balances w s wallet sr true)))) =
     Some (set_amount pos 0 false) /\
     forall acc,
       cache_loop w wallet (w_active_id w (st_log s)) (pos :: post)
         (cache_state_before w wallet s pre) acc =
       cache_loop w wallet (w_active_id w (st_log s)) post
         (with_db (issue (cache_state_before w wallet s pre) (C_balanceOf wallet (row_bin pos)))
            (deactivate_position (st_db (cache_state_before w wallet s pre)) (row_id pos))) acc).
Proof.
  intros Hnd Hs Hlp.
  destruct (split_ids_other _ _ _ _ _ Hnd Hs) as (Hpre & Hpost & Hin).
  assert (Hsp : find (fun r => row_id r =? row_id pos)
                  (db_rows (st_db (cache_state_before w wallet s pre))) = Some pos).
  { unfold cache_state_before. rewrite cache_loop_find_other by exact Hpre.
    cbn [st_db issue]. apply find_id_in; assumption. }
  assert (Hcp : cache_phase w wallet true s =
                cache_loop w wallet (w_active_id w (st_log s)) (pos :: post)
                  (cache_state_before w wallet s pre)
                  (fst (cache_loop w wallet (w_active_id w (st_log s)) pre
                          (issue s C_getActiveId) []))).
  { rewrite (cache_phase_loop _ _ _ _ _ _ Hs), cache_loop_app. reflexivity. }
  set (A := w_active_id w (st_log s)) in *.
  set (sp := cache_state_before w wallet s pre) in *.
  set (accp := fst (cache_loop w wallet A pre (issue s C_getActiveId) [])) in *.
  split.
  - intros bx by_ Hpos Hbin.
    set (s2 := issue (issue sp (C_balanceOf wallet (row_bin pos))) (C_getBin (row_bin pos))).
    set (p := mk_position w (row_bin pos) bal bx by_ A).
    set (s3 := if Qgtb (Qabs (fsub (row_amount pos) (lp_of_wei bal))) AMOUNT_EPSILON
               then with_db s2 (update_position (st_db s2) (row_id pos) (lp_of_wei bal) true)
               else s2).
    assert (Hstep : cache_loop w wallet A (pos :: post) sp accp =
                    cache_loop w wallet A post s3 (accp ++ [p])).
    { cbn [cache_loop]. unfold read_lp. rewrite Hlp.
      apply Z.ltb_lt in Hpos. rewrite Hpos. unfold read_bin. cbn [st_log issue].
      rewrite Hbin. reflexivity. }
    unfold get_all_lp_balances. rewrite Hcp, Hstep.
    destruct (cache_loop_acc w wallet A post s3 (accp ++ [p])) as (ext & Hext).
    assert (Hf : find (fun r => row_id r =? row_id pos)
                   (db_rows (st_db (snd (cache_loop w wallet A post s3 (accp ++ [p]))))) =
                 Some (if Qgtb (Qabs (fsub (row_amount pos) (lp_of_wei bal))) AMOUNT_EPSILON
                       then set_amount pos (lp_of_wei bal) true else pos)).
    { rewrite cache_loop_find_other by exact Hpost. unfold s3.
      destruct (Qgtb _ _).
      - cbn [st_db with_db]. rewrite find_id_update. unfold s2. cbn [st_db issue].
        rewrite Hsp. cbn [option_map]. rewrite Z.eqb_refl. reflexivity.
      - unfold s2. cbn [st_db issue]. exact Hsp. }
    destruct (cache_loop w wallet A post s3 (accp ++ [p])) as [ps sf].
    cbn [fst snd] in Hext, Hf |- *. subst ps.
    destruct ((accp ++ [p]) ++ ext) as [|x xs] eqn:E.
    + apply app_eq_nil in E. destruct E as [E _]. apply app_eq_nil in E.
      destruct E as [_ E]. discriminate.
    + cbn [fst snd]. split; [|exact Hf]. rewrite <- E.
      apply in_app_iff. left. apply in_app_iff. right. left. reflexivity.
  - intros ->.
    assert (Hstep : forall acc,
               cache_loop w wallet A (pos :: post) sp acc =
               cache_loop w wallet A post
                 (with_db (issue sp (C_balanceOf wallet (row_bin pos)))
                    (deactivate_position (st_db sp) (row_id pos))) acc).
    { intros acc. cbn [cache_loop]. unfold read_lp. rewrite Hlp. reflexivity. }
    split; [|exact Hstep].
    destruct (get_all_rows_after_cache w wallet sr s) as (extra & Hx).
    rewrite Hx, find_app, Hcp, Hstep, cache_loop_find_other by exact Hpost.
    cbn [st_db with_db]. unfold deactivate_position. rewrite find_id_update, Hsp.
    cbn [option_map]. rewrite Z.eqb_refl. reflexivity.
Qed.

Lemma cache_path_position_witness :
  NoDup (map row_id (db_rows (st_db state_c3))) /\
  get_active_positions (st_db state_c3) "0xA11CE" POOL_ADDRESS =
    [] ++ tracked_row 1 1000 1 :: [tracked_row 2 1001 1] /\
  w_lp world_c2 (st_log (cache_state_before world_c2 "0xA11CE" state_c3 [])) "0xA11CE" 1000 =
    Some (2 * 10 ^ 18) /\
  In (mk_position world_c2 1000 (2 * 10 ^ 18) 7 9 1000)
     (fst (get_all_lp_balances world_c2 state_c3 "0xA11CE" 50 true)) /\
  find (fun r => row_id r =? 1)
       (db_rows (st_db (snd (get_all_lp_balances world_c2 state_c3 "0xA11CE" 50 true)))) =
  Some (if Qgtb (Qabs (fsub 1 (lp_of_wei (2 * 10 ^ 18)))) AMOUNT_EPSILON
        then set_amount (tracked_row 1 1000 1) (lp_of_wei (2 * 10 ^ 18)) true
        else tracked_row 1 1000 1) /\
  Qgtb (Qabs (fsub 1 (lp_of_wei (2 * 10 ^ 18)))) AMOUNT_EPSILON = true /\
  get_active_positions (st_db state_c3) "0xA11CE" POOL_ADDRESS =
    [tracked_row 1 1000 1] ++ tracked_row 2 1001 1 :: [] /\
  w_lp world_c2 (st_log (cache_state_before world_c2 "0xA11CE" state_c3 [tracked_row 1 1000 1]))
    "0xA11CE" 1001 = Some 0 /\
  find (fun r => row_id r =? 2)
       (db_rows (st_db (snd (get_all_lp_balances world_c2 state_c3 "0xA11CE" 50 true)))) =
  Some (set_amount (tracked_row 2 1001 1) 0 false).
Proof.
  assert (Hnd : NoDup (map row_id (db_rows (st_db state_c3)))).
  { simpl. constructor; [simpl; intros [H|[]]; discriminate|].
    constructor; [intros []|constructor]. }
  assert (H1 : get_active_positions (st_db state_c3) "0xA11CE" POOL_ADDRESS =
               [] ++ tracked_row 1 1000 1 :: [tracked_row 2 1001 1]) by reflexivity.
  assert (H2 : get_active_positions (st_db state_c3) "0xA11CE" POOL_ADDRESS =
               [tracked_row 1 1000 1] ++ tracked_row 2 1001 1 :: []) by reflexivity.
  assert (L1 : w_lp world_c2 (st_log (cache_state_before world_c2 "0xA11CE" state_c3 []))
                 "0xA11CE" 1000 = Some (2 * 10 ^ 18)) by reflexivity.
  assert (L2 : w_lp world_c2
                 (st_log (cache_state_before world_c2 "0xA11CE" state_c3 [tracked_row 1 1000 1]))
                 "0xA11CE" 1001 = Some 0) by reflexivity.
  pose proof (proj1 (cache_path_position world_c2 "0xA11CE" 50 state_c3 []
             [tracked_row 2 1001 1] (tracked_row 1 1000 1) (2 * 10 ^ 18) Hnd H1 L1)
             7 9 ltac:(lia) eq_refl) as [P1 P2].
  split; [exact Hnd|]. split; [exact H1|]. split; [exact L1|]. split; [exact P1|].
  split; [exact P2|]. split; [vm_compute; reflexivity|].
  split; [exact H2|]. split; [exact L2|].
  exact (proj1 (proj2 (cache_path_position world_c2 "0xA11CE" 50 state_c3
             [tracked_row 1 1000 1] [] (tracked_row 2 1001 1) 0 Hnd H2 L2) eq_refl)).
Defined.

(** ** Running the resolution twice *)

Lemma emits_app (w : world) (wallet : string) (A : Z) (l m : list Z) :
  emits w wallet A (l ++ m) = emits w wallet A l ++ emits w wallet A m.
Proof. unfold emits. apply flat_map_app. Qed.

Lemma emits_filter_notdead (w : world) (wallet : string) (A : Z) (l : list Z) :
  emits w wallet A (filter (notdead w wallet) l) = emits w wallet A l.
Proof.
  induction l as [|b l IH]; simpl; [reflexivity|].
  unfold notdead at 1. destruct (w_lp w [] wallet b) as [bal|] eqn:Hlp.
  - destruct (0 <? bal) eqn:Hb.
    + unfold emits in *. simpl. rewrite IH. reflexivity.
    + unfold emits at 2. simpl. unfold emit at 1. rewrite Hlp, Hb. exact IH.
  - unfold emits in *. simpl. rewrite IH. reflexivity.
Qed.

Lemma emits_nil_none (w : world) (wallet : string) (A b : Z) (l : list Z) :
  emits w wallet A l = [] -> In b l -> emit w wallet A b = None.
Proof.
  intros H Hb. destruct (emit w wallet A b) as [p|] eqn:E; [|reflexivity].
  pose proof (in_emits _ _ _ _ _ _ Hb E) as Hp. rewrite H in Hp. destruct Hp.
Qed.

Lemma emits_filter_some (w : world) (wallet : string) (A : Z) (q : Z -> bool) (l : list Z) :
  (forall b, In b l -> isSome (emit w wallet A b) = true -> q b = true) ->
  emits w wallet A (filter (fun b => isSome (emit w wallet A b) && q b) l) =
  emits w wallet A l.
Proof.
  induction l as [|b l IH]; intros H; cbn [filter]; [reflexivity|].
  assert (IH' := IH (fun x Hx => H x (or_intror Hx))).
  destruct (emit w wallet A b) as [p|] eqn:E; cbn [isSome andb].
  - rewrite (H b (or_introl eq_refl)) by (rewrite E; reflexivity).
    unfold emits in *. simpl. rewrite E, IH'. reflexivity.
  - unfold emits at 2. simpl. rewrite E. exact IH'.
Qed.

Section FixedResolution2.
Variable w : world.
Hypothesis Hst : static_world w.
Variable wallet : string.

Lemma full_scan_active_bins (sr : Z) (s : state) :
  active_bins (st_db (snd (full_scan w wallet sr true s))) wallet =
  active_bins (st_db s) wallet ++
  filter (fun b => isSome (emit w wallet (w_active_id w []) b) &&
                   negb (memZ b (active_bins (st_db s) wallet)))
         (py_range (Z.max 0 (w_active_id w [] - sr)) (w_active_id w [] + sr + 1)).
Proof.
  unfold full_scan, get_active_bin. cbv iota beta zeta. static_rw Hst.
  apply (scan_loop_active_bins w Hst wallet _ _ (NoDup_py_range _ _) (issue s C_getActiveId)).
Qed.

End FixedResolution2.

(** C8: on a chain that does not change, resolving the positions of a
    wallet twice in a row, with the same arguments, reports the same
    positions (the same list, in the same order) both times; the store
    only needs distinct row ids, which its primary key guarantees. *)
Theorem resolve_idempotent (w : world) (Hst : static_world w) (wallet : string)
    (scan_range : Z) (use_db_first : bool) (s : state) :
  NoDup (map row_id (db_rows (st_db s))) ->
  fst (get_all_lp_balances w (snd (get_all_lp_balances w s wallet scan_range use_db_first))
         wallet scan_range use_db_first) =
  fst (get_all_lp_balances w s wallet scan_range use_db_first).
Proof.
  intros Hnd. destruct use_db_first.
  2:{ unfold get_all_lp_balances, cache_phase. cbv iota beta zeta.
      rewrite !(full_scan_emit w Hst). reflexivity. }
  set (A := w_active_id w []).
  set (bins := py_range (Z.max 0 (A - scan_range)) (A + scan_range + 1)).
  set (s1 := snd (cache_phase w wallet true s)).
  assert (Hab1 : active_bins (st_db s1) wallet =
                 filter (notdead w wallet) (active_bins (st_db s) wallet))
    by exact (cache_phase_active_bins w Hst wallet s Hnd).
  rewrite (get_all_true_cases w Hst wallet scan_range s). fold A s1.
  destruct (emits w wallet A (active_bins (st_db s) wallet)) as [|e E] eqn:E0.
  - rewrite (get_all_true_cases w Hst wallet scan_range). fold A.
    rewrite (full_scan_active_bins w Hst wallet). fold A bins.
    rewrite emits_app, Hab1, emits_filter_notdead, E0. simpl.
    rewrite emits_filter_some.
    2:{ intros b _ Hs. apply negb_true_iff. destruct (memZ b _) eqn:M; [|reflexivity].
        unfold memZ in M. apply existsb_exists in M. destruct M as (b' & Hb' & Eb).
        apply Z.eqb_eq in Eb. subst b'. rewrite filter_In in Hb'.
        rewrite (emits_nil_none w wallet A b _ E0 (proj1 Hb')) in Hs. discriminate. }
    rewrite (full_scan_emit w Hst wallet). fold A bins.
    destruct (emits w wallet A bins) eqn:S; [|reflexivity].
    rewrite (full_scan_emit w Hst wallet). fold A bins. exact S.
  - rewrite (get_all_true_cases w Hst wallet scan_range). fold A.
    cbn [snd]. rewrite Hab1, emits_filter_notdead, E0. reflexivity.
Qed.

Lemma resolve_idempotent_witness :
  NoDup (map row_id (db_rows (st_db state_c3))) /\
  fst (get_all_lp_balances world_c2 (snd (get_all_lp_balances world_c2 state_c3 "0xA11CE" 50 true))
         "0xA11CE" 50 true) =
  fst (get_all_lp_balances world_c2 state_c3 "0xA11CE" 50 true) /\
  fst (get_all_lp_balances world_c4 (snd (get_all_lp_balances world_c4 (start empty_db)
                                            "0xA11CE" 50 true)) "0xA11CE" 50 true) =
  fst (get_all_lp_balances world_c4 (start empty_db) "0xA11CE" 50 true).
Proof.
  assert (Hst2 : static_world world_c2) by (intros h; split; [|split]; reflexivity).
  assert (Hst4 : static_world world_c4) by (intros h; split; [|split]; reflexivity).
  assert (Hnd : NoDup (map row_id (db_rows (st_db state_c3)))).
  { simpl. constructor; [simpl; intros [H|[]]; discriminate|].
    constructor; [intros []|constructor]. }
  split; [exact Hnd|]. split.
  - exact (resolve_idempotent world_c2 Hst2 "0xA11CE" 50 true state_c3 Hnd).
  - exact (resolve_idempotent world_c4 Hst4 "0xA11CE" 50 true (start empty_db) (NoDup_nil _)).
Defined.

(** ** The Position Store invariant *)

Lemma NoDup_snoc {X : Type} (l : list X) (x : X) :
  NoDup l -> ~ In x l -> NoDup (l ++ [x]).
Proof.
  induction l as [|a l IH]; simpl; intros Hnd Hx; [constructor; [intros []|constructor]|].
  inversion Hnd as [|? ? Ha Hnd']; subst. constructor.
  - rewrite in_app_iff. simpl. intros [H|[H|[]]]; [contradiction|apply Hx; left; symmetry; exact H].
  - apply IH; [exact Hnd'|]. intros H. apply Hx. right. exact H.
Qed.

Section KeysMap.
Variable g : row -> row.

Lemma keys_map_incl (rows : list row) :
  (forall r, In r rows -> row_key (g r) = row_key r /\
                          (row_active (g r) = true -> row_active r = true)) ->
  forall k, In k (map row_key (filter row_active (map g rows))) ->
            In k (map row_key (filter row_active rows)).
Proof.
  induction rows as [|r rows IH]; simpl; intros H k Hk; [exact Hk|].
  destruct (H r (or_introl eq_refl)) as [Hkey Hact].
  assert (IH' := IH (fun x Hx => H x (or_intror Hx)) k).
  destruct (row_active (g r)) eqn:Eg.
  - rewrite (Hact eq_refl). simpl in *. destruct Hk as [Hk|Hk]; [left; congruence|].
    right. apply IH'. exact Hk.
  - destruct (row_active r); simpl; [right|]; apply IH'; exact Hk.
Qed.

Lemma keys_map_nodup (rows : list row) :
  (forall r, In r rows -> row_key (g r) = row_key r /\
                          (row_active (g r) = true -> row_active r = true)) ->
  NoDup (map row_key (filter row_active rows)) ->
  NoDup (map row_key (filter row_active (map g rows))).
Proof.
  induction rows as [|r rows IH]; simpl; intros H Hnd; [constructor|].
  destruct (H r (or_introl eq_refl)) as [Hkey Hact].
  assert (H' : forall x, In x rows -> row_key (g x) = row_key x /\
                         (row_active (g x) = true -> row_active x = true))
    by (intros x Hx; apply H; right; exact Hx).
  destruct (row_active (g r)) eqn:Eg.
  - rewrite (Hact eq_refl) in Hnd. simpl in *.
    inversion Hnd as [|? ? Hk Hnd']; subst. constructor.
    + intros Hin. apply Hk. rewrite <- Hkey. exact (keys_map_incl rows H' _ Hin).
    + exact (IH H' Hnd').
  - apply IH; [exact H'|]. destruct (row_active r); [|exact Hnd].
    simpl in Hnd. inversion Hnd; assumption.
Qed.

End KeysMap.

Lemma update_ok (d : db) (i : Z) (amt : Q) (b : bool) :
  store_ok d ->
  (b = true -> forall r, In r (db_rows d) -> row_id r = i -> row_active r = true) ->
  store_ok (update_position d i amt b).
Proof.
  intros [[Hid Hlt] Hu] Hb.
  set (g := fun r => if row_id r =? i then set_amount r amt b else r).
  assert (Hg : forall r, row_id (g r) = row_id r)
    by (intros r; unfold g; destruct (row_id r =? i); reflexivity).
  split; [split|].
  - simpl. fold g. rewrite map_map. rewrite (map_ext _ _ Hg). exact Hid.
  - simpl. fold g. apply Forall_map. eapply Forall_impl; [|exact Hlt].
    intros r Hr. rewrite Hg. exact Hr.
  - unfold active_unique. simpl. fold g. apply keys_map_nodup; [|exact Hu].
    intros r Hr. unfold g. destruct (row_id r =? i) eqn:E; [|split; auto].
    split; [reflexivity|]. simpl. intros ->. apply Z.eqb_eq in E. exact (Hb eq_refl r Hr E).
Qed.

Lemma deactivate_ok (d : db) (i : Z) :
  store_ok d -> store_ok (deactivate_position d i).
Proof. intros H. apply update_ok; [exact H | discriminate]. Qed.

Lemma update_rows_other (d : db) (i : Z) (amt : Q) (b : bool) (r : row) :
  In r (db_rows (update_position d i amt b)) -> row_id r <> i -> In r (db_rows d).
Proof.
  simpl. rewrite in_map_iff. intros (r0 & E & H0) Hne.
  destruct (row_id r0 =? i) eqn:Ei; [|subst; exact H0].
  apply Z.eqb_eq in Ei. exfalso. apply Hne. rewrite <- E. exact Ei.
Qed.

Lemma update_loop_inv (d : db) (q : row) (L : list row) (amt : Q) (b : bool) :
  store_ok d -> NoDup (map row_id (q :: L)) -> ids_active d (q :: L) ->
  store_ok (update_position d (row_id q) amt b) /\
  ids_active (update_position d (row_id q) amt b) L.
Proof.
  intros Hok Hnd Hia. split.
  - apply update_ok; [exact Hok|]. intros _ r Hr Ei. exact (Hia q (or_introl eq_refl) r Hr Ei).
  - intros q' Hq' r Hr Ei. simpl in Hnd. inversion Hnd as [|? ? Hq Hnd']; subst.
    assert (Hne : row_id r <> row_id q).
    { rewrite Ei. intros E. apply Hq. rewrite <- E. apply in_map. exact Hq'. }
    exact (Hia q' (or_intror Hq') r (update_rows_other d _ amt b r Hr Hne) Ei).
Qed.

Lemma add_ok (d : db) (wallet : string) (b : Z) (amt : Q) (tx ty : string) :
  store_ok d -> get_position_by_bin d wallet b POOL_ADDRESS = None ->
  store_ok (add_position d wallet b amt tx ty POOL_ADDRESS).
Proof.
  intros [[Hid Hlt] Hu] Hg. rewrite gpb_unfold in Hg.
  pose proof (find_none _ _ Hg) as Hn.
  split; [split|].
  - simpl. rewrite map_app. simpl. apply NoDup_snoc; [exact Hid|].
    rewrite in_map_iff. intros (r & E & Hr). rewrite Forall_forall in Hlt.
    specialize (Hlt r Hr). lia.
  - simpl. apply Forall_app. split.
    + eapply Forall_impl; [|exact Hlt]. intros r Hr. cbv beta in *. lia.
    + constructor; [simpl; lia | constructor].
  - unfold active_unique. simpl. rewrite filter_app, map_app. simpl.
    apply NoDup_snoc; [exact Hu|]. rewrite in_map_iff.
    intros (r & E & Hr). apply filter_In in Hr. destruct Hr as [Hr Ha].
    specialize (Hn r Hr). unfold row_key in E. simpl in E. injection E as E1 E2 E3.
    unfold gpb_key in Hn. rewrite E1, E2, E3, Ha, String.eqb_refl, Z.eqb_refl in Hn. discriminate.
Qed.

Lemma record_ok (d : db) (o : operation) :
  store_ok d -> store_ok (record_operation d o).
Proof. intros H. exact H. Qed.

Lemma cache_loop_ok (w : world) (wallet : string) (A : Z) (L : list row) :
  forall s acc, store_ok (st_db s) -> NoDup (map row_id L) -> ids_active (st_db s) L ->
  store_ok (st_db (snd (cache_loop w wallet A L s acc))).
Proof.
  induction L as [|q L IH]; intros s acc Hok Hnd Hia; simpl; [exact Hok|].
  assert (Hnd' : NoDup (map row_id L)) by (inversion Hnd; assumption).
  assert (Hia' : ids_active (st_db s) L) by exact (fun q' Hq' => Hia q' (or_intror Hq')).
  destruct (w_lp w (st_log s) wallet (row_bin q)) as [bal|]; [|apply IH; assumption].
  destruct (0 <? bal).
  - destruct (w_bin w _ (row_bin q)) as [[bx by_]|]; [|apply IH; assumption].
    destruct (Qgtb _ _); [|apply IH; assumption].
    destruct (update_loop_inv (st_db s) q L (lp_of_wei bal) true Hok Hnd Hia) as [H1 H2].
    apply IH; assumption.
  - destruct (update_loop_inv (st_db s) q L 0%Q false Hok Hnd Hia) as [H1 H2].
    apply IH; assumption.
Qed.

Lemma scan_loop_ok (w : world) (wallet : string) (A : Z) (u : bool) (bins : list Z) :
  forall s acc, store_ok (st_db s) ->
  store_ok (st_db (snd (scan_loop w wallet A u bins s acc))).
Proof.
  induction bins as [|b bins IH]; intros s acc Hok; simpl; [exact Hok|].
  destruct (w_lp w (st_log s) wallet b) as [bal|]; [|apply IH; exact Hok].
  destruct (0 <? bal); [|apply IH; exact Hok].
  destruct (w_bin w _ b) as [[bx by_]|]; [|apply IH; exact Hok].
  destruct u; [|apply IH; exact Hok].
  destruct (get_position_by_bin (st_db s) wallet b POOL_ADDRESS) eqn:G;
    apply IH; [exact Hok|]. apply add_ok; assumption.
Qed.

Lemma get_all_ok (w : world) (s : state) (wallet : string) (sr : Z) (u : bool) :
  store_ok (st_db s) -> store_ok (st_db (snd (get_all_lp_balances w s wallet sr u))).
Proof.
  intros Hok.
  assert (Hc : store_ok (st_db (snd (cache_phase w wallet u s)))).
  { unfold cache_phase. destruct u; [|exact Hok].
    rewrite get_active_positions_act.
    destruct (filter (act wallet) (db_rows (st_db s))) as [|q L] eqn:E; [exact Hok|].
    unfold get_active_bin. cbv iota beta zeta.
    apply cache_loop_ok; [exact Hok| |].
    - rewrite <- E. apply NoDup_map_filter. exact (proj1 (proj1 Hok)).
    - intros q' Hq' r Hr Ei. rewrite <- E, filter_In in Hq'. destruct Hq' as [Hq' Ha].
      assert (r = q') by exact (NoDup_map_inj row_id _ r q' (proj1 (proj1 Hok)) Hr Hq' Ei).
      subst. unfold act in Ha. apply andb_true_iff in Ha as [Ha _].
      apply andb_true_iff in Ha as [_ Ha]. exact Ha. }
  unfold get_all_lp_balances.
  destruct (cache_phase w wallet u s) as [ps s1]. simpl in Hc.
  destruct ps as [|p ps]; [|exact Hc].
  unfold full_scan, get_active_bin. cbv iota beta zeta.
  apply scan_loop_ok. exact Hc.
Qed.

Lemma approve_token_db (w : world) (s : state) (account token spender : string) (amount : Q) :
  st_db (snd (approve_token w s account token spender amount)) = st_db s.
Proof.
  unfold approve_token. cbv zeta.
  destruct (w_allowance w (st_log s) token account); [|reflexivity].
  destruct (_ <=? _); reflexivity.
Qed.

Lemma approve_lp_tokens_db (w : world) (s : state) (spender : string) :
  st_db (snd (approve_lp_tokens w s spender)) = st_db s.
Proof. reflexivity. Qed.

Lemma add_liquidity_approvals_db (w : world) (s : state) (account : string) (ax ay : Q) :
  st_db (snd (add_liquidity_approvals w s account ax ay)) = st_db s.
Proof.
  unfold add_liquidity_approvals.
  assert (K : forall s1, st_db s1 = st_db s ->
            st_db (snd (approve_token w s1 account BTCB_ADDRESS ROUTER_ADDRESS ay)) = st_db s)
    by (intros s1 H; rewrite approve_token_db; exact H).
  destruct (Qgtb ax 0).
  - pose proof (approve_token_db w s account WAVAX_ADDRESS ROUTER_ADDRESS ax) as Ha.
    destruct (approve_token w s account WAVAX_ADDRESS ROUTER_ADDRESS ax) as [ok s1].
    simpl in Ha. destruct ok; cbv iota; [|exact Ha].
    destruct (Qgtb ay 0); [|exact Ha].
    pose proof (K s1 Ha) as Hb.
    destruct (approve_token w s1 account BTCB_ADDRESS ROUTER_ADDRESS ay) as [ok2 s2].
    exact Hb.
  - destruct (Qgtb ay 0); [|reflexivity].
    pose proof (K s eq_refl) as Hb.
    destruct (approve_token w s account BTCB_ADDRESS ROUTER_ADDRESS ay) as [ok2 s2].
    exact Hb.
Qed.

Lemma gpb_some_active (d : db) (wallet : string) (b : Z) (pos : row) :
  get_position_by_bin d wallet b POOL_ADDRESS = Some pos -> store_ok d ->
  forall r, In r (db_rows d) -> row_id r = row_id pos -> row_active r = true.
Proof.
  rewrite gpb_unfold. intros G Hok r Hr Ei. apply find_some in G. destruct G as [Hp Hk].
  assert (r = pos) by exact (NoDup_map_inj row_id _ r pos (proj1 (proj1 Hok)) Hr Hp Ei).
  subst. unfold gpb_key in Hk. apply andb_true_iff in Hk. exact (proj2 Hk).
Qed.

Lemma add_liquidity_ok (w : world) (s : state) (account : string) (b : Z) (ax ay : Q) :
  store_ok (st_db s) -> store_ok (st_db (snd (add_liquidity w s account b ax ay))).
Proof.
  intros Hok. unfold add_liquidity.
  pose proof (add_liquidity_approvals_db w s account ax ay) as H1.
  destruct (add_liquidity_approvals w s account ax ay) as [ra s1]. cbn [snd] in H1.
  destruct ra as [[x y]|]; [|cbn [snd]; rewrite H1; exact Hok].
  cbv zeta. unfold send_tx. cbv iota beta.
  destruct (w_tx w (st_log s1) _) as [[|]|];
    [|cbn [snd st_db issue]; rewrite H1; exact Hok ..].
  unfold read_lp. cbv iota beta.
  destruct (w_lp w _ account b) as [bal|];
    [|cbn [snd st_db issue with_db]; apply record_ok; rewrite H1; exact Hok].
  match goal with |- context [get_position_by_bin ?d _ _ _] =>
    assert (Hd : store_ok d) by (cbn [st_db issue with_db]; apply record_ok; rewrite H1; exact Hok);
    destruct (get_position_by_bin d account b POOL_ADDRESS) as [pos|] eqn:G end.
  - cbn [snd st_db with_db]. apply update_ok; [exact Hd|]. intros _.
    exact (gpb_some_active _ _ _ _ G Hd).
  - cbn [snd st_db with_db]. apply add_ok; assumption.
Qed.

Lemma remove_liquidity_ok (w : world) (s : state) (account : string) (b : Z) (amt : Q) :
  store_ok (st_db s) -> store_ok (st_db (snd (remove_liquidity w s account b amt))).
Proof.
  intros Hok. unfold remove_liquidity.
  destruct (Qle_bool amt 0);
    [unfold read_lp; cbv iota beta; destruct (w_lp w (st_log s) account b) as [bb|];
     [destruct (Qle_bool (lp_of_wei bb) 0)|]; cbv iota beta|]; try exact Hok.
  all: unfold approve_lp_tokens, send_tx; cbv iota beta zeta.
  all: destruct (w_tx w _ (C_setApprovalForAll ROUTER_ADDRESS)) as [[|]|]; cbn [negb];
    cbv iota; try exact Hok.
  all: destruct (w_tx w _ (C_removeLiquidity _ _ _ _)) as [[|]|]; try exact Hok.
  all: unfold read_lp; cbv iota beta.
  all: destruct (w_lp w _ account b) as [bal|];
    [|cbn [snd st_db issue with_db]; apply record_ok; exact Hok].
  all: match goal with |- context [get_position_by_bin ?d _ _ _] =>
    assert (Hd : store_ok d) by (cbn [st_db issue with_db]; apply record_ok; exact Hok);
    destruct (get_position_by_bin d account b POOL_ADDRESS) as [pos|] eqn:G end;
    [|exact Hd].
  all: destruct (Qle_bool (lp_of_wei bal) 0); cbn [snd st_db with_db];
    [apply deactivate_ok; exact Hd
    | apply update_ok; [exact Hd | intros _; exact (gpb_some_active _ _ _ _ G Hd)]].
Qed.

Lemma deactivate_all_ok (account : string) (positions : list position) :
  forall d, store_ok d -> store_ok (deactivate_all d account positions).
Proof.
  induction positions as [|p ps IH]; intros d Hok; simpl; [exact Hok|].
  apply IH. destruct (get_position_by_bin d account (p_bin_id p) POOL_ADDRESS);
    [apply deactivate_ok|]; exact Hok.
Qed.

Lemma remove_all_liquidity_ok (w : world) (s : state) (account : string) (sr : Z) :
  store_ok (st_db s) -> store_ok (st_db (snd (remove_all_liquidity w s account sr))).
Proof.
  intros Hok. unfold remove_all_liquidity.
  pose proof (get_all_ok w s account sr true Hok) as H1.
  destruct (get_all_lp_balances w s account sr true) as [ps s1]. cbn [snd] in H1.
  destruct ps as [|p ps]; [exact H1|].
  unfold approve_lp_tokens, send_tx; cbv iota beta zeta.
  destruct (w_tx w _ (C_setApprovalForAll ROUTER_ADDRESS)) as [[|]|]; cbn [negb];
    cbv iota; try exact H1.
  destruct (w_tx w _ (C_removeLiquidity _ _ _ _)) as [[|]|]; try exact H1.
  cbn [snd st_db with_db issue]. apply deactivate_all_ok, record_ok. exact H1.
Qed.

Lemma rebalance_liquidity_ok (w : world) (s : state) (account : string) (A : Z) :
  store_ok (st_db s) -> store_ok (st_db (snd (rebalance_liquidity w s account A))).
Proof.
  intros Hok. unfold rebalance_liquidity.
  pose proof (remove_all_liquidity_ok w s account DEFAULT_BIN_SCAN_RANGE Hok) as H1.
  destruct (remove_all_liquidity w s account DEFAULT_BIN_SCAN_RANGE) as [ok s1].
  cbn [snd] in H1. destruct ok; cbn [negb]; cbv iota; [|exact H1].
  unfold read_token_balance. cbv iota beta zeta.
  match goal with |- context [if Qgtb ?x (1 # 100) then _ else _] =>
    destruct (Qgtb x (1 # 100)) end.
  - match goal with |- context [add_liquidity w ?s3 account ?b ?x ?y] =>
      pose proof (add_liquidity_ok w s3 account b x y H1) as H2;
      destruct (add_liquidity w s3 account b x y) as [ok2 s4] end.
    cbn [snd] in H2. cbv iota beta.
    match goal with |- context [if Qgtb ?x (1 # 10000) then _ else _] =>
      destruct (Qgtb x (1 # 10000)) end.
    + match goal with |- context [add_liquidity w ?s3 account ?b ?x ?y] =>
        pose proof (add_liquidity_ok w s3 account b x y H2) as H3;
        destruct (add_liquidity w s3 account b x y) as [ok3 s5] end.
      cbn [snd] in H3. cbv iota beta.
      destruct (_ <? _)%nat; exact H3.
    + cbv iota beta. destruct (_ <? _)%nat; exact H2.
  - cbv iota beta.
    match goal with |- context [if Qgtb ?x (1 # 10000) then _ else _] =>
      destruct (Qgtb x (1 # 10000)) end.
    + match goal with |- context [add_liquidity w ?s3 account ?b ?x ?y] =>
        pose proof (add_liquidity_ok w s3 account b x y H1) as H3;
        destruct (add_liquidity w s3 account b x y) as [ok3 s5] end.
      cbn [snd] in H3. cbv iota beta.
      destruct (_ <? _)%nat; exact H3.
    + cbv iota beta. destruct (_ <? _)%nat; exact H1.
Qed.

(** C9: every operation that writes the Position Store (position
    resolution, add-liquidity, remove-liquidity, remove-all and rebalance),
    run against any chain, keeps at most one active row per
    [(wallet, pool, bin)]; the invariant is carried together with the
    primary-key facts of the table (distinct ids, all below the
    AUTOINCREMENT counter), which every operation also keeps. *)
Theorem store_invariant_preserved (w : world) (s : state) (account : string) :
  store_ok (st_db s) ->
  (forall sr u, store_ok (st_db (snd (get_all_lp_balances w s account sr u)))) /\
  (forall b ax ay, store_ok (st_db (snd (add_liquidity w s account b ax ay)))) /\
  (forall b amt, store_ok (st_db (snd (remove_liquidity w s account b amt)))) /\
  (forall sr, store_ok (st_db (snd (remove_all_liquidity w s account sr)))) /\
  (forall A, store_ok (st_db (snd (rebalance_liquidity w s account A)))).
Proof.
  intros Hok. split; [|split; [|split; [|split]]].
  - intros sr u. apply get_all_ok. exact Hok.
  - intros b ax ay. apply add_liquidity_ok. exact Hok.
  - intros b amt. apply remove_liquidity_ok. exact Hok.
  - intros sr. apply remove_all_liquidity_ok. exact Hok.
  - intros A. apply rebalance_liquidity_ok. exact Hok.
Qed.

Lemma store_invariant_preserved_witness :
  store_ok (st_db state_c3) /\
  active_unique (st_db (snd (rebalance_liquidity world_c2 state_c3 "0xA11CE" 1000))) /\
  active_unique (st_db (snd (add_liquidity world_c2 state_c3 "0xA11CE" 1000 (1 # 10) 0))).
Proof.
  assert (Hok : store_ok (st_db state_c3)).
  { unfold store_ok, ids_ok, active_unique. simpl. split; [split|].
    - constructor; [simpl; intros [H|[]]; discriminate|].
      constructor; [intros []|constructor].
    - constructor; [reflexivity|constructor; [reflexivity|constructor]].
    - constructor; [simpl; intros [H|[]]; discriminate|].
      constructor; [intros []|constructor]. }
  destruct (store_invariant_preserved world_c2 state_c3 "0xA11CE" Hok)
    as (_ & Hadd & _ & _ & Hreb).
  split; [exact Hok|]. split.
  - exact (proj2 (Hreb 1000)).
  - exact (proj2 (Hadd 1000 (1 # 10) 0%Q)).
Defined.

(* ================================================================== *)
(** * Further properties of the code *)

(** ** Position Store round trips *)

Lemma find_all_false {X : Type} (f : X -> bool) (l : list X) :
  (forall x, In x l -> f x = false) -> find f l = None.
Proof.
  induction l as [|x l IH]; simpl; intros H; [reflexivity|].
  rewrite (H x (or_introl eq_refl)). apply IH. intros y Hy. apply H. right. exact Hy.
Qed.

Lemma gpb_key_set (wallet : string) (b : Z) (r : row) (amt : Q) :
  gpb_key wallet b r = true -> gpb_key wallet b (set_amount r amt true) = true.
Proof.
  unfold gpb_key, set_amount. cbn [row_wallet row_bin row_pool row_active].
  destruct (String.eqb (row_wallet r) wallet), (row_bin r =? b),
    (String.eqb (row_pool r) POOL_ADDRESS); simpl; congruence.
Qed.

Lemma gpb_key_inactive (wallet : string) (b : Z) (r : row) (amt : Q) :
  gpb_key wallet b (set_amount r amt false) = false.
Proof. unfold gpb_key. cbn [row_active set_amount]. apply andb_false_r. Qed.

Lemma gpb_key_row_key (wallet : string) (b : Z) (r : row) :
  gpb_key wallet b r = true ->
  row_key r = (wallet, POOL_ADDRESS, b) /\ row_active r = true.
Proof.
  unfold gpb_key, row_key. intros H.
  destruct (String.eqb_spec (row_wallet r) wallet), (Z.eqb_spec (row_bin r) b),
    (String.eqb_spec (row_pool r) POOL_ADDRESS); simpl in H; try discriminate.
  split; [congruence | exact H].
Qed.

Lemma gpb_update_hit (d : db) (wallet : string) (b : Z) (r : row) (amt : Q) :
  NoDup (map row_id (db_rows d)) ->
  get_position_by_bin d wallet b POOL_ADDRESS = Some r ->
  get_position_by_bin (update_position d (row_id r) amt true) wallet b POOL_ADDRESS =
  Some (set_amount r amt true).
Proof.
  rewrite !gpb_unfold. unfold update_position, set_rows. cbn [db_rows].
  induction (db_rows d) as [|x l IH]; simpl; intros Hnd G; [discriminate|].
  inversion Hnd as [|? ? Hx Hnd']; subst.
  destruct (gpb_key wallet b x) eqn:K.
  - injection G as <-. rewrite Z.eqb_refl. simpl. rewrite (gpb_key_set _ _ _ _ K). reflexivity.
  - assert (Hr : In r l) by (apply find_some in G; exact (proj1 G)).
    destruct (row_id x =? row_id r) eqn:E.
    + apply Z.eqb_eq in E. exfalso. apply Hx. rewrite E. apply in_map. exact Hr.
    + simpl. rewrite K. apply IH; assumption.
Qed.

Lemma gpb_deactivate_none (d : db) (wallet : string) (b i : Z) :
  get_position_by_bin d wallet b POOL_ADDRESS = None ->
  get_position_by_bin (deactivate_position d i) wallet b POOL_ADDRESS = None.
Proof.
  rewrite !gpb_unfold. intros G. pose proof (find_none _ _ G) as Hn.
  apply find_all_false. cbn [deactivate_position update_position set_rows db_rows].
  intros x' Hx'. apply in_map_iff in Hx'. destruct Hx' as (x & <- & Hx).
  destruct (row_id x =? i); [apply gpb_key_inactive|exact (Hn x Hx)].
Qed.

Lemma gpb_deactivate_hit (d : db) (wallet : string) (b : Z) (r : row) :
  store_ok d ->
  get_position_by_bin d wallet b POOL_ADDRESS = Some r ->
  get_position_by_bin (deactivate_position d (row_id r)) wallet b POOL_ADDRESS = None.
Proof.
  intros [[Hid _] Hu] G. rewrite gpb_unfold in G.
  apply find_some in G. destruct G as [Hr Kr].
  destruct (gpb_key_row_key _ _ _ Kr) as [Er Ar].
  rewrite gpb_unfold. apply find_all_false.
  cbn [deactivate_position update_position set_rows db_rows].
  intros x' Hx'. apply in_map_iff in Hx'. destruct Hx' as (x & <- & Hx).
  destruct (row_id x =? row_id r) eqn:E; [apply gpb_key_inactive|].
  destruct (gpb_key wallet b x) eqn:Kx; [|reflexivity].
  destruct (gpb_key_row_key _ _ _ Kx) as [Ex Ax].
  assert (x = r).
  { apply (NoDup_map_inj row_key (filter row_active (db_rows d))); [exact Hu | | |congruence];
      apply filter_In; split; assumption. }
  subst. rewrite Z.eqb_refl in E. discriminate.
Qed.

Lemma update_position_noop (d : db) (i : Z) (amt : Q) (a : bool) :
  ~ In i (map row_id (db_rows d)) -> update_position d i amt a = d.
Proof.
  intros Hi. destruct d as [rows nxt ops]. unfold update_position, set_rows.
  cbn [db_rows db_next db_ops] in *. f_equal.
  rewrite <- (map_id rows) at 2. apply map_ext_in. intros r Hr.
  destruct (row_id r =? i) eqn:E; [|reflexivity].
  apply Z.eqb_eq in E. exfalso. apply Hi. rewrite <- E. apply in_map. exact Hr.
Qed.

Lemma state_c3_ok : store_ok (st_db state_c3).
Proof.
  unfold store_ok, ids_ok, active_unique. simpl. split; [split|].
  - constructor; [simpl; intros [H|[]]; discriminate|].
    constructor; [intros []|constructor].
  - constructor; [reflexivity|constructor; [reflexivity|constructor]].
  - constructor; [simpl; intros [H|[]]; discriminate|].
    constructor; [intros []|constructor].
Qed.

(** Adding a record and looking its key up: [get_position_by_bin] on the
    [(wallet, bin, pool)] just added returns the record that was already
    active for that key, if there is one ([add_position] does not check for
    it, and the older row comes first), and otherwise the new active record,
    whose id is the AUTOINCREMENT counter before the insert. *)
Theorem add_position_lookup (d : db) (wallet : string) (b : Z) (amt : Q)
    (tx ty pool : string) :
  get_position_by_bin (add_position d wallet b amt tx ty pool) wallet b pool =
  match get_position_by_bin d wallet b pool with
  | Some r => Some r
  | None => Some {| row_id := db_next d; row_wallet := wallet; row_bin := b;
                    row_amount := amt; row_token_x := tx; row_token_y := ty;
                    row_pool := pool; row_active := true |}
  end.
Proof.
  unfold get_position_by_bin, add_position. cbn [db_rows]. rewrite find_app.
  destruct (find _ (db_rows d)); [reflexivity|]. simpl.
  rewrite !String.eqb_refl, Z.eqb_refl. reflexivity.
Qed.

(** Updating the record found for a key and looking the key up again: with
    distinct row ids, [update_position(id, amount)] (which keeps the row
    active) makes [get_position_by_bin] return a record with the same id
    and bin that carries the new amount. *)
Theorem update_position_lookup (d : db) (wallet : string) (b : Z) (r : row) (amt : Q) :
  ids_ok d ->
  get_position_by_bin d wallet b POOL_ADDRESS = Some r ->
  exists r',
    get_position_by_bin (update_position d (row_id r) amt true) wallet b POOL_ADDRESS =
      Some r' /\
    row_id r' = row_id r /\ row_bin r' = row_bin r /\ row_amount r' = amt.
Proof.
  intros [Hid _] G. exists (set_amount r amt true).
  split; [exact (gpb_update_hit d wallet b r amt Hid G)|].
  split; [|split]; reflexivity.
Qed.

Lemma update_position_lookup_witness :
  ids_ok (st_db state_c3) /\
  get_position_by_bin (st_db state_c3) "0xA11CE" 1000 POOL_ADDRESS = Some (tracked_row 1 1000 1) /\
  exists r',
    get_position_by_bin (update_position (st_db state_c3) 1 (5 # 2) true) "0xA11CE" 1000
      POOL_ADDRESS = Some r' /\
    row_id r' = 1 /\ row_bin r' = 1000 /\ row_amount r' = (5 # 2).
Proof.
  split; [exact (proj1 state_c3_ok)|]. split; [reflexivity|].
  apply (update_position_lookup (st_db state_c3) "0xA11CE" 1000 (tracked_row 1 1000 1) (5 # 2)).
  - exact (proj1 state_c3_ok).
  - reflexivity.
Defined.

(** Deactivating the record found for a key: when the store keeps one
    active row per key, [deactivate_position] on the id returned by
    [get_position_by_bin] leaves no active record for that key. *)
Theorem deactivate_position_lookup (d : db) (wallet : string) (b : Z) (r : row) :
  store_ok d ->
  get_position_by_bin d wallet b POOL_ADDRESS = Some r ->
  get_position_by_bin (deactivate_position d (row_id r)) wallet b POOL_ADDRESS = None.
Proof. exact (gpb_deactivate_hit d wallet b r). Qed.

Lemma deactivate_position_lookup_witness :
  store_ok (st_db state_c3) /\
  get_position_by_bin (st_db state_c3) "0xA11CE" 1001 POOL_ADDRESS = Some (tracked_row 2 1001 1) /\
  get_position_by_bin (deactivate_position (st_db state_c3) 2) "0xA11CE" 1001 POOL_ADDRESS = None.
Proof.
  split; [exact state_c3_ok|]. split; [reflexivity|].
  apply (deactivate_position_lookup (st_db state_c3) "0xA11CE" 1001 (tracked_row 2 1001 1)).
  - exact state_c3_ok.
  - reflexivity.
Defined.

(** Updating or deactivating an id that is not in the table changes nothing
    (the UPDATE matches no row). *)
Theorem update_missing_id (d : db) (i : Z) (amt : Q) (a : bool) :
  ~ In i (map row_id (db_rows d)) ->
  update_position d i amt a = d /\ deactivate_position d i = d.
Proof. intros Hi. split; apply update_position_noop; exact Hi. Qed.

Lemma update_missing_id_witness :
  ~ In 7 (map row_id (db_rows (st_db state_c3))) /\
  update_position (st_db state_c3) 7 (5 # 2) true = st_db state_c3 /\
  deactivate_position (st_db state_c3) 7 = st_db state_c3.
Proof.
  assert (H : ~ In 7 (map row_id (db_rows (st_db state_c3))))
    by (simpl; intros [E|[E|[]]]; discriminate).
  split; [exact H|]. exact (update_missing_id (st_db state_c3) 7 (5 # 2) true H).
Defined.

(** ** Writes: post-conditions and edge cases *)

Lemma gpb_record (d : db) (o : operation) (wallet : string) (b : Z) (pool : string) :
  get_position_by_bin (record_operation d o) wallet b pool = get_position_by_bin d wallet b pool.
Proof. reflexivity. Qed.

(** After a successful [add_liquidity(bin_id, ...)], with the store
    invariant holding before: the chain confirmed an [addLiquidity] call on
    [[bin_id]], the last call issued is the LP balance read of [bin_id] that
    follows it, and [get_position_by_bin] finds an active record for
    [bin_id] whose amount is that balance in LP tokens (the existing record
    updated, or a new one inserted). *)
Theorem add_liquidity_records_balance (w : world) (s s' : state) (account : string)
    (b : Z) (ax ay : Q) :
  store_ok (st_db s) ->
  add_liquidity w s account b ax ay = (true, s') ->
  exists h0 amx amy bal r,
    w_tx w h0 (C_addLiquidity (w_token_x w) (w_token_y w) [b] amx amy) = Some true /\
    st_log s' = h0 ++ [C_addLiquidity (w_token_x w) (w_token_y w) [b] amx amy;
                       C_balanceOf account b] /\
    w_lp w (h0 ++ [C_addLiquidity (w_token_x w) (w_token_y w) [b] amx amy]) account b = Some bal /\
    get_position_by_bin (st_db s') account b POOL_ADDRESS = Some r /\
    row_amount r = lp_of_wei bal.
Proof.
  intros Hok E. unfold add_liquidity in E.
  pose proof (add_liquidity_approvals_db w s account ax ay) as H1.
  destruct (add_liquidity_approvals w s account ax ay) as [ra s1]. cbn [snd] in H1.
  destruct ra as [[x y]|]; [|discriminate].
  unfold send_tx, read_lp in E. cbv iota beta zeta in E.
  destruct (w_tx w (st_log s1) _) as [[|]|] eqn:T; try discriminate.
  destruct (w_lp w _ account b) as [bal|] eqn:L; [|discriminate].
  cbn [st_db st_log with_db issue] in E. rewrite gpb_record in E.
  assert (Hid : NoDup (map row_id (db_rows (st_db s1)))) by (rewrite H1; exact (proj1 (proj1 Hok))).
  destruct (get_position_by_bin (st_db s1) account b POOL_ADDRESS) as [pos|] eqn:G;
    injection E as <-.
  - do 3 eexists. exists bal, (set_amount pos (lp_of_wei bal) true).
    split; [exact T|]. split; [cbn; rewrite <- app_assoc; reflexivity|].
    split; [exact L|]. split; [|reflexivity].
    cbn [st_db with_db issue].
    apply gpb_update_hit; [exact Hid|exact G].
  - match goal with |- context [add_position ?d _ _ _ _ _ _] =>
      destruct (gpb_add_same d account b (lp_of_wei bal) (w_token_x w) (w_token_y w) G)
        as (r & Gr & Ar) end.
    do 3 eexists. exists bal, r.
    split; [exact T|]. split; [cbn; rewrite <- app_assoc; reflexivity|].
    split; [exact L|]. split; [exact Gr|exact Ar].
Qed.

Lemma add_liquidity_records_balance_witness :
  store_ok (st_db state_c3) /\
  add_liquidity world_funded state_c3 "0xA11CE" 1001 (1 # 10) 0 =
    (true, snd (add_liquidity world_funded state_c3 "0xA11CE" 1001 (1 # 10) 0)) /\
  exists h0 amx amy bal r,
    w_tx world_funded h0 (C_addLiquidity WAVAX_ADDRESS BTCB_ADDRESS [1001] amx amy) = Some true /\
    st_log (snd (add_liquidity world_funded state_c3 "0xA11CE" 1001 (1 # 10) 0)) =
      h0 ++ [C_addLiquidity WAVAX_ADDRESS BTCB_ADDRESS [1001] amx amy; C_balanceOf "0xA11CE" 1001] /\
    w_lp world_funded (h0 ++ [C_addLiquidity WAVAX_ADDRESS BTCB_ADDRESS [1001] amx amy])
      "0xA11CE" 1001 = Some bal /\
    get_position_by_bin (st_db (snd (add_liquidity world_funded state_c3 "0xA11CE" 1001 (1 # 10) 0)))
      "0xA11CE" 1001 POOL_ADDRESS = Some r /\
    row_amount r = lp_of_wei bal.
Proof.
  assert (H : add_liquidity world_funded state_c3 "0xA11CE" 1001 (1 # 10) 0 =
    (true, snd (add_liquidity world_funded state_c3 "0xA11CE" 1001 (1 # 10) 0)))
    by (vm_compute; reflexivity).
  split; [exact state_c3_ok|]. split; [exact H|].
  exact (add_liquidity_records_balance world_funded state_c3 _ "0xA11CE" 1001 (1 # 10) 0
           state_c3_ok H).
Defined.

(** After a successful [remove_liquidity(bin_id, ...)], with the store
    invariant holding before: the chain confirmed a [removeLiquidity] call on
    [[bin_id]], the last call issued is the LP balance read that follows it,
    and the record of [bin_id] is gone when that balance is zero; otherwise
    a record is found only if one was found before, now carrying the live
    balance (no record is ever inserted). *)
Theorem remove_liquidity_records_balance (w : world) (s s' : state) (account : string)
    (b : Z) (amt : Q) :
  store_ok (st_db s) ->
  remove_liquidity w s account b amt = (true, s') ->
  exists h0 amounts bal,
    w_tx w h0 (C_removeLiquidity (w_token_x w) (w_token_y w) [b] amounts) = Some true /\
    st_log s' = h0 ++ [C_removeLiquidity (w_token_x w) (w_token_y w) [b] amounts;
                       C_balanceOf account b] /\
    w_lp w (h0 ++ [C_removeLiquidity (w_token_x w) (w_token_y w) [b] amounts]) account b = Some bal /\
    get_position_by_bin (st_db s') account b POOL_ADDRESS =
    (if Qle_bool (lp_of_wei bal) 0 then None
     else option_map (fun r => set_amount r (lp_of_wei bal) true)
                     (get_position_by_bin (st_db s) account b POOL_ADDRESS)).
Proof.
  intros Hok E. unfold remove_liquidity in E.
  assert (K : forall s1 amount, st_db s1 = st_db s ->
    (let liquidity_wei := py_int (amount * inject_Z (10 ^ 18)) in
     let (ok, s2) := approve_lp_tokens w s1 ROUTER_ADDRESS in
     if negb ok then (false, s2) else
     let (r, s3) := send_tx w s2 (C_removeLiquidity (w_token_x w) (w_token_y w)
                                    [b] [liquidity_wei]) in
     match r with
     | Some true =>
         let s4 := with_db s3 (record_operation (st_db s3)
                     {| op_type := "remove"; op_wallet := account;
                        op_pool := POOL_ADDRESS; op_bin := Some b;
                        op_amount_x := None; op_amount_y := None;
                        op_notes := Some (N_removed_lp amount) |}) in
         let (ob, s5) := read_lp w s4 account b in
         match ob with
         | None => (false, s5)
         | Some bb =>
             let current := lp_of_wei bb in
             match get_position_by_bin (st_db s5) account b POOL_ADDRESS with
             | Some pos =>
                 if Qle_bool current 0
                 then (true, with_db s5 (deactivate_position (st_db s5) (row_id pos)))
                 else (true, with_db s5 (update_position (st_db s5) (row_id pos) current true))
             | None => (true, s5)
             end
         end
     | _ => (false, s3)
     end) = (true, s') ->
    exists h0 amounts bal,
    w_tx w h0 (C_removeLiquidity (w_token_x w) (w_token_y w) [b] amounts) = Some true /\
    st_log s' = h0 ++ [C_removeLiquidity (w_token_x w) (w_token_y w) [b] amounts;
                       C_balanceOf account b] /\
    w_lp w (h0 ++ [C_removeLiquidity (w_token_x w) (w_token_y w) [b] amounts]) account b = Some bal /\
    get_position_by_bin (st_db s') account b POOL_ADDRESS =
    (if Qle_bool (lp_of_wei bal) 0 then None
     else option_map (fun r => set_amount r (lp_of_wei bal) true)
                     (get_position_by_bin (st_db s) account b POOL_ADDRESS))).
  { intros s1 amount Hs1 E1.
    unfold approve_lp_tokens, send_tx, read_lp in E1. cbv iota beta zeta in E1.
    destruct (w_tx w (st_log s1) _) as [[|]|]; cbn [negb] in E1; try discriminate.
    destruct (w_tx w _ (C_removeLiquidity _ _ _ _)) as [[|]|] eqn:T; try discriminate.
    destruct (w_lp w _ account b) as [bal|] eqn:L; [|discriminate].
    cbn [st_db st_log with_db issue] in E1. rewrite gpb_record, Hs1 in E1.
    exists (st_log s1 ++ [C_setApprovalForAll ROUTER_ADDRESS]),
      [py_int (amount * inject_Z (10 ^ 18))], bal.
    split; [exact T|].
    destruct (get_position_by_bin (st_db s) account b POOL_ADDRESS) as [pos|] eqn:G.
    - destruct (Qle_bool (lp_of_wei bal) 0) eqn:Q0; injection E1 as <-.
      + split; [cbn [st_log with_db issue]; rewrite <- app_assoc; reflexivity|]. split; [exact L|].
        cbn [st_db with_db issue]. apply gpb_deactivate_hit; [exact Hok|exact G].
      + split; [cbn [st_log with_db issue]; rewrite <- app_assoc; reflexivity|]. split; [exact L|].
        cbn [st_db with_db issue]. apply gpb_update_hit; [exact (proj1 (proj1 Hok))|exact G].
    - injection E1 as <-.
      split; [cbn [st_log with_db issue]; rewrite <- app_assoc; reflexivity|]. split; [exact L|].
      cbn [st_db with_db issue]. rewrite gpb_record, G.
      destruct (Qle_bool (lp_of_wei bal) 0); reflexivity. }
  destruct (Qle_bool amt 0).
  - unfold read_lp in E. cbv iota beta in E.
    destruct (w_lp w (st_log s) account b) as [bb|]; [|discriminate].
    destruct (Qle_bool (lp_of_wei bb) 0); [discriminate|].
    exact (K (issue s (C_balanceOf account b)) (lp_of_wei bb) eq_refl E).
  - exact (K s amt eq_refl E).
Qed.

Lemma remove_liquidity_records_balance_witness :
  store_ok (st_db state_c3) /\
  remove_liquidity world_funded state_c3 "0xA11CE" 1001 1 =
    (true, snd (remove_liquidity world_funded state_c3 "0xA11CE" 1001 1)) /\
  exists h0 amounts bal,
    w_tx world_funded h0 (C_removeLiquidity WAVAX_ADDRESS BTCB_ADDRESS [1001] amounts) = Some true /\
    st_log (snd (remove_liquidity world_funded state_c3 "0xA11CE" 1001 1)) =
      h0 ++ [C_removeLiquidity WAVAX_ADDRESS BTCB_ADDRESS [1001] amounts; C_balanceOf "0xA11CE" 1001] /\
    w_lp world_funded (h0 ++ [C_removeLiquidity WAVAX_ADDRESS BTCB_ADDRESS [1001] amounts])
      "0xA11CE" 1001 = Some bal /\
    get_position_by_bin (st_db (snd (remove_liquidity world_funded state_c3 "0xA11CE" 1001 1)))
      "0xA11CE" 1001 POOL_ADDRESS =
    (if Qle_bool (lp_of_wei bal) 0 then None
     else option_map (fun r => set_amount r (lp_of_wei bal) true)
                     (get_position_by_bin (st_db state_c3) "0xA11CE" 1001 POOL_ADDRESS)).
Proof.
  assert (H : remove_liquidity world_funded state_c3 "0xA11CE" 1001 1 =
    (true, snd (remove_liquidity world_funded state_c3 "0xA11CE" 1001 1)))
    by (vm_compute; reflexivity).
  split; [exact state_c3_ok|]. split; [exact H|].
  exact (remove_liquidity_records_balance world_funded state_c3 _ "0xA11CE" 1001 1
           state_c3_ok H).
Defined.

(** ** Call traces *)

Lemma ext_P_refl (P : call -> Prop) (s : state) : ext_P P s s.
Proof. exists []. rewrite app_nil_r. split; [reflexivity|constructor]. Qed.

Lemma ext_P_trans (P : call -> Prop) (s1 s2 s3 : state) :
  ext_P P s1 s2 -> ext_P P s2 s3 -> ext_P P s1 s3.
Proof.
  intros (t1 & E1 & F1) (t2 & E2 & F2). exists (t1 ++ t2).
  rewrite E2, E1, app_assoc. split; [reflexivity|]. apply Forall_app. split; assumption.
Qed.

Lemma ext_P_issue (P : call -> Prop) (s : state) (c : call) :
  P c -> ext_P P s (issue s c).
Proof. intros H. exists [c]. split; [reflexivity|]. constructor; [exact H|constructor]. Qed.

Lemma ext_P_with_db_l (P : call -> Prop) (s s' : state) (d : db) :
  ext_P P (with_db s d) s' -> ext_P P s s'.
Proof. intros H. exact H. Qed.

Lemma ext_P_mono (P P' : call -> Prop) (s s' : state) :
  (forall c, P c -> P' c) -> ext_P P s s' -> ext_P P' s s'.
Proof.
  intros H (t & E & F). exists t. split; [exact E|]. eapply Forall_impl; [exact H|exact F].
Qed.

Ltac step_P :=
  match goal with
  | |- ext_P ?P ?s0 _ =>
      match goal with
      | |- context [issue s0 ?c] =>
          apply (ext_P_trans P s0 (issue s0 c)); [apply ext_P_issue; hnf; cbn; auto|]
      end
  end.

Ltac close_P IH := first [apply IH | eapply ext_P_with_db_l; apply IH].

Lemma cache_loop_reads (w : world) (wallet : string) (A : Z) (L : list row) :
  forall s acc, ext_P is_resolution_read s (snd (cache_loop w wallet A L s acc)).
Proof.
  induction L as [|q L IH]; intros s acc; simpl; [apply ext_P_refl|].
  destruct (w_lp w (st_log s) wallet (row_bin q)) as [bal|]; [|step_P; apply IH].
  destruct (0 <? bal).
  - step_P.
    destruct (w_bin w _ (row_bin q)) as [[bx by_]|]; step_P; [|apply IH].
    destruct (Qgtb _ _); close_P IH.
  - step_P. close_P IH.
Qed.

Lemma scan_loop_reads (w : world) (wallet : string) (A : Z) (u : bool) (bins : list Z) :
  forall s acc, ext_P is_resolution_read s (snd (scan_loop w wallet A u bins s acc)).
Proof.
  induction bins as [|b bins IH]; intros s acc; simpl; [apply ext_P_refl|].
  destruct (w_lp w (st_log s) wallet b) as [bal|]; [|step_P; apply IH].
  destruct (0 <? bal).
  - step_P.
    destruct (w_bin w _ b) as [[bx by_]|]; step_P; [|apply IH].
    destruct u; [destruct (get_position_by_bin _ _ _ _)|]; close_P IH.
  - step_P. close_P IH.
Qed.

Lemma get_all_reads (w : world) (s : state) (wallet : string) (sr : Z) (u : bool) :
  ext_P is_resolution_read s (snd (get_all_lp_balances w s wallet sr u)).
Proof.
  unfold get_all_lp_balances, cache_phase, full_scan, get_active_bin.
  assert (Hc : ext_P is_resolution_read s (snd (if u then
             match get_active_positions (st_db s) wallet POOL_ADDRESS with
             | [] => ([], s)
             | db_positions => cache_loop w wallet (w_active_id w (st_log s)) db_positions
                                 (issue s C_getActiveId) []
             end else ([], s)))).
  { destruct u; [|apply ext_P_refl].
    destruct (get_active_positions _ _ _); [apply ext_P_refl|].
    step_P. apply cache_loop_reads. }
  destruct (if u then _ else _) as [[|p ps] s1]; simpl in *.
  - eapply ext_P_trans; [exact Hc|]. step_P. apply scan_loop_reads.
  - exact Hc.
Qed.

Lemma read_not_add (c : call) : is_resolution_read c -> not_add c.
Proof. destruct c; cbn; intros H; first [reflexivity | contradiction]. Qed.

Lemma remove_all_not_add (w : world) (s : state) (account : string) (sr : Z) :
  ext_P not_add s (snd (remove_all_liquidity w s account sr)).
Proof.
  unfold remove_all_liquidity.
  pose proof (ext_P_mono _ _ _ _ read_not_add (get_all_reads w s account sr true)) as H1.
  destruct (get_all_lp_balances w s account sr true) as [ps s1]. cbn [snd] in H1.
  destruct ps as [|p ps]; [exact H1|].
  eapply ext_P_trans; [exact H1|].
  unfold approve_lp_tokens, send_tx. cbv iota beta zeta.
  destruct (w_tx w (st_log s1) (C_setApprovalForAll ROUTER_ADDRESS)) as [[|]|]; cbn [negb];
    cbv iota; step_P; try apply ext_P_refl.
  match goal with |- context [w_tx w ?h (C_removeLiquidity ?a ?b ?c ?d)] =>
    destruct (w_tx w h (C_removeLiquidity a b c d)) as [[|]|] end; step_P; exact (ext_P_refl _ _).
Qed.

Lemma not_add_add_call_of (w : world) (b : Z) (ax ay : Q) (c : call) :
  not_add c -> add_call_of w b ax ay c.
Proof. destruct c; cbn; intros E; try exact I; discriminate E. Qed.

Lemma not_add_placement (w : world) (A : Z) (c : call) :
  not_add c -> placement_ok w A c.
Proof. destruct c; cbn; intros E; try exact I; discriminate E. Qed.

Lemma approve_token_not_add (w : world) (s : state) (account token spender : string) (amount : Q) :
  ext_P not_add s (snd (approve_token w s account token spender amount)).
Proof.
  unfold approve_token, send_tx. cbv zeta.
  destruct (w_allowance w (st_log s) token account); step_P; [|apply ext_P_refl].
  destruct (_ <=? _); [apply ext_P_refl|]. cbv iota beta. step_P. apply ext_P_refl.
Qed.

Lemma approvals_shape (w : world) (s : state) (account : string) (ax ay : Q) :
  ext_P not_add s (snd (add_liquidity_approvals w s account ax ay)) /\
  forall x y, fst (add_liquidity_approvals w s account ax ay) = Some (x, y) ->
    x = (if Qgtb ax 0 then to_wei ax else 0) /\
    y = (if Qgtb ay 0 then py_int (ay * inject_Z (10 ^ BTCB_DECIMALS)) else 0).
Proof.
  unfold add_liquidity_approvals.
  assert (K : forall (s1 : state) (x0 : Z), ext_P not_add s s1 ->
    ext_P not_add s (snd (let (ok, s2) := approve_token w s1 account BTCB_ADDRESS ROUTER_ADDRESS ay in
      (if ok then Some (x0, py_int (ay * inject_Z (10 ^ BTCB_DECIMALS))) else None, s2))) /\
    forall x y, fst (let (ok, s2) := approve_token w s1 account BTCB_ADDRESS ROUTER_ADDRESS ay in
      (if ok then Some (x0, py_int (ay * inject_Z (10 ^ BTCB_DECIMALS))) else None, s2))
      = Some (x, y) -> x = x0 /\ y = py_int (ay * inject_Z (10 ^ BTCB_DECIMALS))).
  { intros s1 x0 H1.
    pose proof (approve_token_not_add w s1 account BTCB_ADDRESS ROUTER_ADDRESS ay) as H2.
    destruct (approve_token w s1 account BTCB_ADDRESS ROUTER_ADDRESS ay) as [ok s2].
    split; [exact (ext_P_trans _ _ _ _ H1 H2)|].
    intros x y E. destruct ok; [|discriminate]. injection E as <- <-. split; reflexivity. }
  destruct (Qgtb ax 0).
  - pose proof (approve_token_not_add w s account WAVAX_ADDRESS ROUTER_ADDRESS ax) as Ha.
    destruct (approve_token w s account WAVAX_ADDRESS ROUTER_ADDRESS ax) as [ok s1].
    cbn [snd] in Ha. destruct ok; cbv iota; [|split; [exact Ha|discriminate]].
    destruct (Qgtb ay 0).
    + exact (K s1 (to_wei ax) Ha).
    + split; [exact Ha|]. intros x y E. injection E as <- <-. split; reflexivity.
  - destruct (Qgtb ay 0).
    + exact (K s 0 (ext_P_refl _ _)).
    + split; [apply ext_P_refl|]. intros x y E. injection E as <- <-. split; reflexivity.
Qed.

Lemma add_liquidity_calls (w : world) (s : state) (account : string) (b : Z) (ax ay : Q) :
  ext_P (add_call_of w b ax ay) s (snd (add_liquidity w s account b ax ay)) /\
  (fst (add_liquidity w s account b ax ay) = true ->
   exists tail, st_log (snd (add_liquidity w s account b ax ay)) = st_log s ++ tail /\
                Exists (fun c => is_add_call c = true) tail).
Proof.
  unfold add_liquidity.
  destruct (approvals_shape w s account ax ay) as [H1 Hv].
  destruct (add_liquidity_approvals w s account ax ay) as [ra s1]. cbn [fst snd] in H1, Hv.
  assert (H1' : ext_P (add_call_of w b ax ay) s s1)
    by (eapply ext_P_mono; [apply not_add_add_call_of|exact H1]).
  destruct ra as [[x y]|]; [|split; [exact H1'|discriminate]].
  destruct (Hv x y eq_refl) as [-> ->].
  assert (Hadd : ext_P (add_call_of w b ax ay) s
                   (issue s1 (C_addLiquidity (w_token_x w) (w_token_y w) [b]
                      [if is_wavax_x w then (if Qgtb ax 0 then to_wei ax else 0)
                       else (if Qgtb ay 0 then py_int (ay * inject_Z (10 ^ BTCB_DECIMALS)) else 0)]
                      [if is_wavax_x w then (if Qgtb ay 0 then py_int (ay * inject_Z (10 ^ BTCB_DECIMALS)) else 0)
                       else (if Qgtb ax 0 then to_wei ax else 0)]))).
  { eapply ext_P_trans; [exact H1'|]. apply ext_P_issue. cbn. auto. }
  destruct H1 as (t1 & E1 & _).
  unfold send_tx, read_lp. cbv iota beta zeta.
  destruct (w_tx w (st_log s1) _) as [[|]|].
  - destruct (w_lp w _ account b) as [bal|].
    + split.
      * eapply ext_P_trans; [exact Hadd|].
        match goal with |- context [issue (with_db ?s0 ?d) _] =>
          apply (ext_P_with_db_l _ s0 _ d) end.
        step_P. destruct (get_position_by_bin _ _ _ _); exact (ext_P_refl _ _).
      * intros _. eexists. split.
        -- destruct (get_position_by_bin _ _ _ _); cbn; rewrite E1, <- !app_assoc; reflexivity.
        -- apply Exists_app. right. left. reflexivity.
    + split; [|discriminate]. eapply ext_P_trans; [exact Hadd|].
      match goal with |- context [issue (with_db ?s0 ?d) _] =>
        apply (ext_P_with_db_l _ s0 _ d) end.
      step_P. exact (ext_P_refl _ _).
  - split; [exact Hadd|discriminate].
  - split; [exact Hadd|discriminate].
Qed.

Lemma Qgtb_spec (x y : Q) : Qgtb x y = true <-> (y < x)%Q.
Proof.
  unfold Qgtb. rewrite negb_true_iff. split; intros H.
  - apply Qnot_le_lt. intros H'. apply Qle_bool_iff in H'. congruence.
  - destruct (Qle_bool x y) eqn:E; [|reflexivity].
    apply Qle_bool_iff in E. exfalso. exact (Qlt_not_le _ _ H E).
Qed.

Lemma Qfloor_pos (x : Q) : (1 <= x)%Q -> 0 < Qfloor x.
Proof.
  intros H. apply Qfloor_resp_le in H. change (Qfloor 1) with 1 in H. lia.
Qed.

Transparent to_wei.
Lemma avax_wei_pos (av : Q) : Qgtb av (1 # 100) = true -> 0 < to_wei av.
Proof.
  rewrite Qgtb_spec. intros H. unfold to_wei, py_int. apply Qfloor_pos.
  apply Qle_trans with ((1 # 100) * inject_Z (10 ^ 18))%Q; [discriminate|].
  apply Qmult_le_compat_r; [apply Qlt_le_weak; exact H | discriminate].
Qed.
Opaque to_wei.

Lemma btc_wei_pos (bt : Q) :
  Qgtb bt (1 # 10000) = true -> 0 < py_int (bt * inject_Z (10 ^ BTCB_DECIMALS)).
Proof.
  rewrite Qgtb_spec. intros H. unfold py_int. apply Qfloor_pos.
  apply Qle_trans with ((1 # 10000) * inject_Z (10 ^ BTCB_DECIMALS))%Q; [discriminate|].
  apply Qmult_le_compat_r; [apply Qlt_le_weak; exact H | discriminate].
Qed.

Lemma Qgtb_pos (x y : Q) : (0 <= y)%Q -> Qgtb x y = true -> Qgtb x 0 = true.
Proof.
  rewrite !Qgtb_spec. intros Hy H. exact (Qle_lt_trans _ _ _ Hy H).
Qed.

Lemma add_call_wavax (w : world) (A : Z) (av : Q) (c : call) :
  Qgtb av (1 # 100) = true ->
  add_call_of w (get_optimal_bin A "WAVAX") av 0 c -> placement_ok w A c.
Proof.
  intros G. pose proof (Qgtb_pos av (1 # 100) ltac:(discriminate) G) as G0.
  destruct c; cbn; try tauto. rewrite G0. intros (_ & _ & -> & -> & ->). left.
  split; [reflexivity|]. exists (to_wei av). split; [exact (avax_wei_pos av G)|].
  destruct (is_wavax_x w); split; reflexivity.
Qed.

Lemma add_call_btc (w : world) (A : Z) (bt : Q) (c : call) :
  Qgtb bt (1 # 10000) = true ->
  add_call_of w (get_optimal_bin A "BTC.b") 0 bt c -> placement_ok w A c.
Proof.
  intros G. pose proof (Qgtb_pos bt (1 # 10000) ltac:(discriminate) G) as G0.
  destruct c; cbn; try tauto. rewrite G0. intros (_ & _ & -> & -> & ->). right.
  split; [reflexivity|]. exists (py_int (bt * inject_Z (10 ^ BTCB_DECIMALS))).
  split; [exact (btc_wei_pos bt G)|].
  destruct (is_wavax_x w); split; reflexivity.
Qed.

Lemma exists_add_ext (s s1 s2 : state) (P : call -> Prop) :
  ext_P P s s1 ->
  (exists tail, st_log s2 = st_log s1 ++ tail /\ Exists (fun c => is_add_call c = true) tail) ->
  exists tail, st_log s2 = st_log s ++ tail /\ Exists (fun c => is_add_call c = true) tail.
Proof.
  intros (t1 & E1 & _) (t2 & E2 & X). exists (t1 ++ t2).
  rewrite E2, E1, app_assoc. split; [reflexivity|]. apply Exists_app. right. exact X.
Qed.

Lemma exists_add_ext_r (s s1 s2 : state) (P : call -> Prop) :
  (exists tail, st_log s1 = st_log s ++ tail /\ Exists (fun c => is_add_call c = true) tail) ->
  ext_P P s1 s2 ->
  exists tail, st_log s2 = st_log s ++ tail /\ Exists (fun c => is_add_call c = true) tail.
Proof.
  intros (t1 & E1 & X) (t2 & E2 & _). exists (t1 ++ t2).
  rewrite E2, E1, app_assoc. split; [reflexivity|]. apply Exists_app. left. exact X.
Qed.

(** The add phase shared by [rebalance_liquidity] and [add_initial_positions]. *)
Lemma add_phase_shape (w : world) (account : string) (A : Z) (g1 g2 : bool) (av bt : Q)
    (s3 : state) (G1 : g1 = true -> Qgtb av (1 # 100) = true)
    (G2 : g2 = true -> Qgtb bt (1 # 10000) = true) :
  let r :=
    let (c1, s4) :=
      if g1 then
        let (ok, s') := add_liquidity w s3 account (get_optimal_bin A "WAVAX") av 0 in
        ((if ok then 1 else 0)%nat, s')
      else (0%nat, s3) in
    let (c2, s5) :=
      if g2 then
        let (ok, s') := add_liquidity w s4 account (get_optimal_bin A "BTC.b") 0 bt in
        ((if ok then 1 else 0)%nat, s')
      else (0%nat, s4) in
    if (0 <? c1 + c2)%nat then
      let (_, s6) := read_token_balance w s5 WAVAX_ADDRESS account in
      let (_, s7) := read_token_balance w s6 BTCB_ADDRESS account in
      (true, s7)
    else (false, s5) in
  ext_P (placement_ok w A) s3 (snd r) /\
  (fst r = true ->
   exists tail, st_log (snd r) = st_log s3 ++ tail /\ Exists (fun c => is_add_call c = true) tail).
Proof.
  cbv zeta.
  assert (Hfin : forall (n : nat) s5, ext_P (placement_ok w A) s3 s5 ->
    (0 < n -> exists tail, st_log s5 = st_log s3 ++ tail /\
                           Exists (fun c => is_add_call c = true) tail)%nat ->
    let r := if (0 <? n)%nat then
      let (_, s6) := read_token_balance w s5 WAVAX_ADDRESS account in
      let (_, s7) := read_token_balance w s6 BTCB_ADDRESS account in
      (true, s7) else (false, s5) in
    ext_P (placement_ok w A) s3 (snd r) /\
    (fst r = true -> exists tail, st_log (snd r) = st_log s3 ++ tail /\
                                  Exists (fun c => is_add_call c = true) tail)).
  { intros n s5 H5 X5. cbv zeta. unfold read_token_balance. cbv iota beta.
    destruct (Nat.ltb_spec 0 n) as [Hn|Hn].
    - split.
      + eapply ext_P_trans; [exact H5|]. step_P. step_P. apply ext_P_refl.
      + intros _. eapply (exists_add_ext_r _ _ _ is_chain_read); [exact (X5 Hn)|]. step_P. step_P. apply ext_P_refl.
    - split; [exact H5|discriminate]. }
  assert (Hb : forall (c1 : nat) s4, ext_P (placement_ok w A) s3 s4 ->
    (0 < c1 -> exists tail, st_log s4 = st_log s3 ++ tail /\
                            Exists (fun c => is_add_call c = true) tail)%nat ->
    let r := (let (c2, s5) :=
      if g2 then
        let (ok, s') := add_liquidity w s4 account (get_optimal_bin A "BTC.b") 0 bt in
        ((if ok then 1 else 0)%nat, s')
      else (0%nat, s4) in
    if (0 <? c1 + c2)%nat then
      let (_, s6) := read_token_balance w s5 WAVAX_ADDRESS account in
      let (_, s7) := read_token_balance w s6 BTCB_ADDRESS account in
      (true, s7)
    else (false, s5)) in
    ext_P (placement_ok w A) s3 (snd r) /\
    (fst r = true -> exists tail, st_log (snd r) = st_log s3 ++ tail /\
                                  Exists (fun c => is_add_call c = true) tail)).
  { intros c1 s4 H4 X4. cbv zeta. destruct g2.
    - destruct (add_liquidity_calls w s4 account (get_optimal_bin A "BTC.b") 0 bt) as [Hc Ht].
      destruct (add_liquidity w s4 account (get_optimal_bin A "BTC.b") 0 bt) as [ok s5].
      cbn [fst snd] in Hc, Ht.
      apply Hfin.
      + eapply ext_P_trans; [exact H4|]. eapply ext_P_mono; [exact (fun c => add_call_btc w A bt c (G2 eq_refl))|exact Hc].
      + intros Hn. destruct ok.
        * exact (exists_add_ext _ _ _ _ H4 (Ht eq_refl)).
        * rewrite Nat.add_0_r in Hn. eapply exists_add_ext_r; [exact (X4 Hn)|exact Hc].
    - apply Hfin; [exact H4|]. rewrite Nat.add_0_r. exact X4. }
  destruct g1.
  - destruct (add_liquidity_calls w s3 account (get_optimal_bin A "WAVAX") av 0) as [Hc Ht].
    destruct (add_liquidity w s3 account (get_optimal_bin A "WAVAX") av 0) as [ok s4].
    cbn [fst snd] in Hc, Ht.
    apply Hb.
    + eapply ext_P_mono; [exact (fun c => add_call_wavax w A av c (G1 eq_refl))|exact Hc].
    + intros Hn. destruct ok; [exact (Ht eq_refl)|inversion Hn].
  - apply Hb; [apply ext_P_refl|]. intros Hn. inversion Hn.
Qed.

Lemma rebalance_shape (w : world) (s : state) (account : string) (A : Z) :
  ext_P (placement_ok w A) s (snd (rebalance_liquidity w s account A)) /\
  (fst (rebalance_liquidity w s account A) = true ->
   exists tail, st_log (snd (rebalance_liquidity w s account A)) = st_log s ++ tail /\
                Exists (fun c => is_add_call c = true) tail).
Proof.
  unfold rebalance_liquidity.
  pose proof (remove_all_not_add w s account DEFAULT_BIN_SCAN_RANGE) as H1.
  destruct (remove_all_liquidity w s account DEFAULT_BIN_SCAN_RANGE) as [ok s1].
  cbn [snd] in H1.
  apply (ext_P_mono _ (placement_ok w A)) in H1; [|apply not_add_placement].
  destruct ok; cbn [negb]; cbv iota; [|split; [exact H1|discriminate]].
  unfold read_token_balance. cbv iota beta zeta.
  set (s3 := issue (issue s1 (C_tokenBalance WAVAX_ADDRESS account))
                   (C_tokenBalance BTCB_ADDRESS account)).
  assert (H3 : ext_P (placement_ok w A) s s3).
  { eapply ext_P_trans; [exact H1|]. unfold s3. step_P. step_P. apply ext_P_refl. }
  match goal with |- context [if ?g1 then let (ok, s') := add_liquidity w s3 account _ ?av 0 in _
                              else _] =>
    match goal with |- context [if ?g2 then let (ok, s') := add_liquidity w _ account _ 0 ?bt in _
                                else _] =>
      destruct (add_phase_shape w account A g1 g2 av bt s3 (fun H => H) (fun H => H)) as [Hp Hs] end end.
  split.
  - exact (ext_P_trans _ _ _ _ H3 Hp).
  - intros E. exact (exists_add_ext _ _ _ _ H3 (Hs E)).
Qed.

Lemma add_initial_shape (w : world) (s : state) (account : string) :
  let A := w_active_id w (st_log s) in
  ext_P (placement_ok w A) s (snd (add_initial_positions w s account)) /\
  (fst (add_initial_positions w s account) = true ->
   exists tail, st_log (snd (add_initial_positions w s account)) = st_log s ++ tail /\
                Exists (fun c => is_add_call c = true) tail).
Proof.
  cbv zeta. unfold add_initial_positions, get_active_bin, read_token_balance.
  cbv iota beta zeta.
  set (A := w_active_id w (st_log s)).
  set (s3 := issue (issue (issue s C_getActiveId) (C_tokenBalance WAVAX_ADDRESS account))
                   (C_tokenBalance BTCB_ADDRESS account)).
  assert (H3 : ext_P (placement_ok w A) s s3).
  { unfold s3. step_P. step_P. step_P. apply ext_P_refl. }
  destruct (_ && _); [split; [exact H3|discriminate]|].
  match goal with |- context [if ?g1 then let (ok, s') := add_liquidity w s3 account _ ?av 0 in _
                              else _] =>
    match goal with |- context [if ?g2 then let (ok, s') := add_liquidity w _ account _ 0 ?bt in _
                                else _] =>
      destruct (add_phase_shape w account A g1 g2 av bt s3 (fun H => H) (fun H => H)) as [Hp Hs] end end.
  split.
  - exact (ext_P_trans _ _ _ _ H3 Hp).
  - intros E. exact (exists_add_ext _ _ _ _ H3 (Hs E)).
Qed.

(** A monitoring check whose position resolution finds positions calls
    [rebalance_liquidity] with the active bin read at its start exactly when
    some found position lies at least [DISTANCE_THRESHOLD] bins from it;
    otherwise the check has no effect beyond the resolution. *)
Theorem monitor_check_positions_found (w : world) (s : state) (account : string)
    (positions : list position) (s2 : state) :
  get_all_lp_balances w (issue s C_getActiveId) account 50 true = (positions, s2) ->
  positions <> [] ->
  monitor_check w s account =
  if existsb (fun p => DISTANCE_THRESHOLD <=? Z.abs (p_bin_id p - w_active_id w (st_log s)))
             positions
  then snd (rebalance_liquidity w s2 account (w_active_id w (st_log s)))
  else s2.
Proof.
  intros E Hne. unfold monitor_check, get_active_bin. cbv iota beta. rewrite E.
  destruct positions as [|p ps]; [contradiction|].
  set (A := w_active_id w (st_log s)).
  set (f := fun p0 : position => {| pv_bin_id := p_bin_id p0 |}).
  assert (Hb : fst (should_rebalance_loop (map f (p :: ps)) A) =
               existsb (fun p0 => DISTANCE_THRESHOLD <=? Z.abs (p_bin_id p0 - A)) (p :: ps)).
  { apply eq_true_iff_eq. rewrite should_rebalance_loop_true, existsb_exists. split.
    - intros (x & Hx & Hd). rewrite in_map_iff in Hx. destruct Hx as (q & <- & Hq).
      exists q. split; [exact Hq|]. apply Z.leb_le. exact Hd.
    - intros (x & Hx & Hd). exists (f x). split; [apply in_map; exact Hx|].
      apply Z.leb_le in Hd. exact Hd. }
  change (should_rebalance (map f (p :: ps)) A) with (should_rebalance_loop (map f (p :: ps)) A).
  destruct (should_rebalance_loop (map f (p :: ps)) A) as [b r]. cbn [fst] in Hb.
  rewrite <- Hb. reflexivity.
Qed.

Lemma monitor_check_positions_found_witness :
  get_all_lp_balances world_funded (issue state_c3 C_getActiveId) "0xA11CE" 50 true =
    (fst (get_all_lp_balances world_funded (issue state_c3 C_getActiveId) "0xA11CE" 50 true),
     snd (get_all_lp_balances world_funded (issue state_c3 C_getActiveId) "0xA11CE" 50 true)) /\
  fst (get_all_lp_balances world_funded (issue state_c3 C_getActiveId) "0xA11CE" 50 true) <> [] /\
  monitor_check world_funded state_c3 "0xA11CE" =
  if existsb (fun p => DISTANCE_THRESHOLD <=? Z.abs (p_bin_id p - 1000))
       (fst (get_all_lp_balances world_funded (issue state_c3 C_getActiveId) "0xA11CE" 50 true))
  then snd (rebalance_liquidity world_funded
              (snd (get_all_lp_balances world_funded (issue state_c3 C_getActiveId) "0xA11CE" 50 true))
              "0xA11CE" 1000)
  else snd (get_all_lp_balances world_funded (issue state_c3 C_getActiveId) "0xA11CE" 50 true).
Proof.
  assert (H1 : get_all_lp_balances world_funded (issue state_c3 C_getActiveId) "0xA11CE" 50 true =
    (fst (get_all_lp_balances world_funded (issue state_c3 C_getActiveId) "0xA11CE" 50 true),
     snd (get_all_lp_balances world_funded (issue state_c3 C_getActiveId) "0xA11CE" 50 true)))
    by (vm_compute; reflexivity).
  assert (H2 : fst (get_all_lp_balances world_funded (issue state_c3 C_getActiveId) "0xA11CE" 50 true)
               <> []) by (vm_compute; discriminate).
  split; [exact H1|]. split; [exact H2|].
  exact (monitor_check_positions_found world_funded state_c3 "0xA11CE" _ _ H1 H2).
Defined.

Lemma deactivate_all_keeps_none (account : string) (b : Z) (ps : list position) :
  forall d, get_position_by_bin d account b POOL_ADDRESS = None ->
  get_position_by_bin (deactivate_all d account ps) account b POOL_ADDRESS = None.
Proof.
  induction ps as [|p ps IH]; simpl; intros d G; [exact G|]. apply IH.
  destruct (get_position_by_bin d account (p_bin_id p) POOL_ADDRESS);
    [apply gpb_deactivate_none|]; exact G.
Qed.

Lemma deactivate_all_clears (account : string) (ps : list position) :
  forall d, store_ok d -> forall b, In b (map p_bin_id ps) ->
  get_position_by_bin (deactivate_all d account ps) account b POOL_ADDRESS = None.
Proof.
  induction ps as [|p ps IH]; simpl; intros d Hok b Hb; [contradiction|].
  destruct Hb as [<-|Hb].
  - apply deactivate_all_keeps_none.
    destruct (get_position_by_bin d account (p_bin_id p) POOL_ADDRESS) as [r|] eqn:G;
      [apply gpb_deactivate_hit; assumption|exact G].
  - apply IH; [|exact Hb].
    destruct (get_position_by_bin d account (p_bin_id p) POOL_ADDRESS);
      [apply deactivate_ok|]; exact Hok.
Qed.

(** After a successful [remove_all_liquidity], with the store invariant
    holding before: the resolved position list was not empty, and no bin of
    it has an active record any more. *)
Theorem remove_all_liquidity_clears_bins (w : world) (s s' : state) (account : string) (sr : Z) :
  store_ok (st_db s) ->
  remove_all_liquidity w s account sr = (true, s') ->
  fst (get_all_lp_balances w s account sr true) <> [] /\
  forall b, In b (map p_bin_id (fst (get_all_lp_balances w s account sr true))) ->
  get_position_by_bin (st_db s') account b POOL_ADDRESS = None.
Proof.
  intros Hok E. unfold remove_all_liquidity in E.
  pose proof (get_all_ok w s account sr true Hok) as H1.
  destruct (get_all_lp_balances w s account sr true) as [ps s1]. cbn [fst snd] in *.
  destruct ps as [|p ps]; [discriminate|].
  unfold approve_lp_tokens, send_tx in E. cbv iota beta zeta in E.
  destruct (w_tx w (st_log s1) (C_setApprovalForAll ROUTER_ADDRESS)) as [[|]|];
    cbn [negb] in E; try discriminate.
  match type of E with context [w_tx w ?h (C_removeLiquidity ?a ?b ?c ?d)] =>
    destruct (w_tx w h (C_removeLiquidity a b c d)) as [[|]|] end; try discriminate.
  injection E as <-. split; [discriminate|].
  intros b Hb. cbn [st_db with_db issue].
  exact (deactivate_all_clears account (p :: ps) _ (record_ok _ _ H1) b Hb).
Qed.

Lemma remove_all_liquidity_clears_bins_witness :
  store_ok (st_db state_c3) /\
  remove_all_liquidity world_funded state_c3 "0xA11CE" 10 =
    (true, snd (remove_all_liquidity world_funded state_c3 "0xA11CE" 10)) /\
  fst (get_all_lp_balances world_funded state_c3 "0xA11CE" 10 true) <> [] /\
  forall b, In b (map p_bin_id (fst (get_all_lp_balances world_funded state_c3 "0xA11CE" 10 true))) ->
  get_position_by_bin (st_db (snd (remove_all_liquidity world_funded state_c3 "0xA11CE" 10)))
    "0xA11CE" b POOL_ADDRESS = None.
Proof.
  assert (H : remove_all_liquidity world_funded state_c3 "0xA11CE" 10 =
    (true, snd (remove_all_liquidity world_funded state_c3 "0xA11CE" 10)))
    by (vm_compute; reflexivity).
  split; [exact state_c3_ok|]. split; [exact H|].
  exact (remove_all_liquidity_clears_bins world_funded state_c3 _ "0xA11CE" 10 state_c3_ok H).
Defined.

(** [remove_liquidity] with a non-positive amount and no live LP balance
    in the bin (the read raises, or returns zero) returns false after that
    single read: it sends no transaction and leaves the store unchanged. *)
Theorem remove_liquidity_nothing_to_remove (w : world) (s : state) (account : string)
    (b : Z) (amt : Q) :
  Qle_bool amt 0 = true ->
  (w_lp w (st_log s) account b = None \/
   exists bal, w_lp w (st_log s) account b = Some bal /\ Qle_bool (lp_of_wei bal) 0 = true) ->
  remove_liquidity w s account b amt = (false, issue s (C_balanceOf account b)).
Proof.
  intros Ha Hb. unfold remove_liquidity, read_lp. rewrite Ha. cbv iota beta.
  destruct Hb as [-> | (bal & -> & Hz)]; [reflexivity|]. rewrite Hz. reflexivity.
Qed.

Lemma remove_liquidity_nothing_to_remove_witness :
  Qle_bool 0 0 = true /\
  (w_lp world_c2 (st_log state_c2) "0xA11CE" 1001 = None \/
   exists bal, w_lp world_c2 (st_log state_c2) "0xA11CE" 1001 = Some bal /\
               Qle_bool (lp_of_wei bal) 0 = true) /\
  remove_liquidity world_c2 state_c2 "0xA11CE" 1001 0 =
    (false, issue state_c2 (C_balanceOf "0xA11CE" 1001)).
Proof.
  assert (H1 : Qle_bool 0 0 = true) by reflexivity.
  assert (H2 : w_lp world_c2 (st_log state_c2) "0xA11CE" 1001 = None \/
    exists bal, w_lp world_c2 (st_log state_c2) "0xA11CE" 1001 = Some bal /\
                Qle_bool (lp_of_wei bal) 0 = true)
    by (right; exists 0; split; vm_compute; reflexivity).
  split; [exact H1|]. split; [exact H2|].
  exact (remove_liquidity_nothing_to_remove world_c2 state_c2 "0xA11CE" 1001 0 H1 H2).
Defined.

(** [add_liquidity] with both amounts non-positive requests no approval:
    the first call it issues is an [addLiquidity] transaction for the bin
    with zero amounts of both tokens. *)
Theorem add_liquidity_without_amounts (w : world) (s : state) (account : string) (b : Z)
    (ax ay : Q) :
  Qle_bool ax 0 = true -> Qle_bool ay 0 = true ->
  exists tail, st_log (snd (add_liquidity w s account b ax ay)) =
               st_log s ++ C_addLiquidity (w_token_x w) (w_token_y w) [b] [0] [0] :: tail.
Proof.
  intros Hx Hy. unfold add_liquidity, add_liquidity_approvals, Qgtb.
  rewrite Hx, Hy. cbn [negb]. cbv iota beta zeta.
  replace (if is_wavax_x w then 0 else 0) with 0 by (destruct (is_wavax_x w); reflexivity).
  unfold send_tx, read_lp. cbv iota beta.
  destruct (w_tx w (st_log s) _) as [[|]|]; [|eexists; reflexivity ..].
  destruct (w_lp w _ account b); [destruct (get_position_by_bin _ _ _ _)|];
    eexists; cbn; rewrite <- !app_assoc; reflexivity.
Qed.

Lemma add_liquidity_without_amounts_witness :
  Qle_bool 0 0 = true /\
  exists tail, st_log (snd (add_liquidity world_funded state_c3 "0xA11CE" 1000 0 0)) =
    st_log state_c3 ++ C_addLiquidity WAVAX_ADDRESS BTCB_ADDRESS [1000] [0] [0] :: tail.
Proof.
  assert (H : Qle_bool 0 0 = true) by reflexivity.
  split; [exact H|].
  exact (add_liquidity_without_amounts world_funded state_c3 "0xA11CE" 1000 0 0 H H).
Defined.

Lemma length_py_range (lo hi : Z) : List.length (py_range lo hi) = Z.to_nat (hi - lo).
Proof. unfold py_range. rewrite length_map, length_seq. reflexivity. Qed.

(** [scan_all_positions] answered with ["y"] in any case, when the active
    bin is at least 1000: the scan issues exactly 2001 balance checks, the
    printed summary says the scan covered 2000 bins, and the store is not
    written. *)
Theorem scan_all_positions_window (w : world) (s : state) (account confirm : string) :
  lower confirm = "y" -> 1000 <= w_active_id w (st_log s) ->
  exists positions s' tail,
    scan_all_positions w s account confirm =
      (Some ((String (ascii_of_nat 10) "Found " ++ str_Z (Z.of_nat (List.length positions)) ++
              " positions across 2000 bins:")%string, positions), s') /\
    st_log s' = st_log s ++ C_getActiveId :: tail /\
    List.length (balance_checks tail) = 2001%nat /\
    st_db s' = st_db s.
Proof.
  intros Hc HA. unfold scan_all_positions. rewrite Hc. cbn [String.eqb negb].
  cbv iota beta zeta.
  unfold get_all_lp_balances, cache_phase, full_scan, get_active_bin. cbv iota beta zeta.
  set (A := w_active_id w (st_log s)) in *.
  destruct (scan_loop_checks w account A false (py_range (Z.max 0 (A - 1000)) (A + 1000 + 1))
              (issue s C_getActiveId) []) as (t & Et & Ct).
  pose proof (scan_loop_db_false w account A (py_range (Z.max 0 (A - 1000)) (A + 1000 + 1))
                (issue s C_getActiveId) []) as Hd.
  destruct (scan_loop w account A false _ (issue s C_getActiveId) []) as [ps s'].
  cbn [snd] in Et, Hd.
  exists ps, s', t. split; [reflexivity|]. split; [rewrite Et; cbn; rewrite <- app_assoc; reflexivity|].
  split; [|exact Hd]. rewrite Ct, length_py_range.
  rewrite Z.max_r by lia. replace (A + 1000 + 1 - (A - 1000)) with 2001 by lia. reflexivity.
Qed.

Lemma scan_all_positions_window_witness :
  lower "Y" = "y" /\ 1000 <= w_active_id world_funded (st_log state_c3) /\
  exists positions s' tail,
    scan_all_positions world_funded state_c3 "0xA11CE" "Y" =
      (Some ((String (ascii_of_nat 10) "Found " ++ str_Z (Z.of_nat (List.length positions)) ++
              " positions across 2000 bins:")%string, positions), s') /\
    st_log s' = st_log state_c3 ++ C_getActiveId :: tail /\
    List.length (balance_checks tail) = 2001%nat /\
    st_db s' = st_db state_c3.
Proof.
  assert (H1 : lower "Y" = "y") by reflexivity.
  assert (H2 : 1000 <= w_active_id world_funded (st_log state_c3)) by (cbn; lia).
  split; [exact H1|]. split; [exact H2|].
  exact (scan_all_positions_window world_funded state_c3 "0xA11CE" "Y" H1 H2).
Defined.

(** Position resolution never sends a transaction: every call
    [get_all_lp_balances] issues, on either path and for any arguments, is
    a chain read ([getActiveId], [balanceOf] or [getBin]). *)
Theorem get_all_lp_balances_read_only (w : world) (s : state) (wallet : string)
    (sr : Z) (u : bool) :
  exists tail, st_log (snd (get_all_lp_balances w s wallet sr u)) = st_log s ++ tail /\
               Forall is_resolution_read tail.
Proof. exact (get_all_reads w s wallet sr u). Qed.

(** Every add-liquidity transaction [rebalance_liquidity(A)] sends deposits
    on one side only, next to the given active bin [A]: a positive amount
    of WAVAX in bin [A + 1], or a positive amount of BTC.b in bin [A - 1],
    and 0 of the other token, whichever of the two is token X. *)
Theorem rebalance_places_next_to_active (w : world) (s : state) (account : string) (A : Z) :
  exists tail, st_log (snd (rebalance_liquidity w s account A)) = st_log s ++ tail /\
               Forall (placement_ok w A) tail.
Proof. exact (proj1 (rebalance_shape w s account A)). Qed.

(** [rebalance_liquidity] reports success only if it sent at least one
    add-liquidity transaction. *)
Theorem rebalance_success_sent_add (w : world) (s : state) (account : string) (A : Z) :
  fst (rebalance_liquidity w s account A) = true ->
  exists tail, st_log (snd (rebalance_liquidity w s account A)) = st_log s ++ tail /\
               Exists (fun c => is_add_call c = true) tail.
Proof. exact (proj2 (rebalance_shape w s account A)). Qed.

Lemma rebalance_success_sent_add_witness :
  fst (rebalance_liquidity world_funded state_c3 "0xA11CE" 1000) = true /\
  exists tail, st_log (snd (rebalance_liquidity world_funded state_c3 "0xA11CE" 1000)) =
               st_log state_c3 ++ tail /\
               Exists (fun c => is_add_call c = true) tail.
Proof.
  assert (H : fst (rebalance_liquidity world_funded state_c3 "0xA11CE" 1000) = true)
    by (vm_compute; reflexivity).
  split; [exact H|]. exact (rebalance_success_sent_add world_funded state_c3 "0xA11CE" 1000 H).
Defined.

(** Every add-liquidity transaction [add_initial_positions] sends deposits
    on one side only, next to the active bin [A] it reads first: a positive
    amount of WAVAX in bin [A + 1], or a positive amount of BTC.b in bin
    [A - 1], and 0 of the other token. *)
Theorem add_initial_places_next_to_active (w : world) (s : state) (account : string) :
  exists tail, st_log (snd (add_initial_positions w s account)) = st_log s ++ tail /\
               Forall (placement_ok w (w_active_id w (st_log s))) tail.
Proof. exact (proj1 (add_initial_shape w s account)). Qed.

(** [add_initial_positions] reports success only if it sent at least one
    add-liquidity transaction. *)
Theorem add_initial_success_sent_add (w : world) (s : state) (account : string) :
  fst (add_initial_positions w s account) = true ->
  exists tail, st_log (snd (add_initial_positions w s account)) = st_log s ++ tail /\
               Exists (fun c => is_add_call c = true) tail.
Proof. exact (proj2 (add_initial_shape w s account)). Qed.

Lemma add_initial_success_sent_add_witness :
  fst (add_initial_positions world_funded (start empty_db) "0xA11CE") = true /\
  exists tail, st_log (snd (add_initial_positions world_funded (start empty_db) "0xA11CE")) =
               st_log (start empty_db) ++ tail /\
               Exists (fun c => is_add_call c = true) tail.
Proof.
  assert (H : fst (add_initial_positions world_funded (start empty_db) "0xA11CE") = true)
    by (vm_compute; reflexivity).
  split; [exact H|]. exact (add_initial_success_sent_add world_funded (start empty_db) "0xA11CE" H).
Defined.
